(** * ESP32 status monitor backend (server.js): liveness inference, transition
      logging, sweep and history gap markers.

    A shallow embedding of [src/server.js].  The SQLite database is a pair of
    tables held as lists in row order; every handler is a function from the
    world (database and console) to the new world and the HTTP response.
    Storage failures are injected per call site through a fault plan, so the
    [if (err)] branches of the handlers are part of the model.

    Modelling choices, all documented where they are made:
    - JavaScript numbers are exact: integers are [Z], the divisions
      [/ 1000 / 60] are taken in [Q];
    - [CURRENT_TIMESTAMP] is SQLite's text 'YYYY-MM-DD HH:MM:SS', a whole
      number of seconds, read back by [new Date(text)] in a UTC process;
    - the statements of one handler act on the database in program order. *)

From Stdlib Require Import ZArith QArith Qround Lia Lqa Ascii.
From stdpp Require Import base option list strings pretty sorting.

Close Scope Q_scope.
Local Open Scope string_scope.
Local Open Scope list_scope.
Local Open Scope Z_scope.

(** ** Time *)

(** [Date.now()], [date.getTime()]: milliseconds since the epoch. *)
Definition Millis := Z.

(** A DATETIME cell written by [CURRENT_TIMESTAMP]: seconds since the epoch. *)
Definition Datetime := Z.

Definition CURRENT_TIMESTAMP (now : Millis) : Datetime := now `div` 1000.

(** [new Date(cell).getTime()] for a DATETIME cell. *)
Definition Date_parse (cell : Datetime) : Millis := 1000 * cell.

(** [new Date(number).getTime()]: the time value is clipped to an integer
    number of milliseconds, rounding toward zero. *)
Definition Date_of_number (q : Q) : Millis := Z.quot (Qnum q) (QDen q).

(** Comparisons of JavaScript numbers. *)
Definition Qltb (x y : Q) : bool := Qnum x * QDen y <? Qnum y * QDen x.
Definition Qgeb (x y : Q) : bool := Qnum y * QDen x <=? Qnum x * QDen y.
Definition Qgtb (x y : Q) : bool := Qnum y * QDen x <? Qnum x * QDen y.

(** [(a - b) / 1000 / 60] for two dates [a] and [b]. *)
Definition minutes_between (a b : Millis) : Q :=
  (inject_Z (a - b) / 1000 / 60)%Q.

(** [Math.round(x)]: the nearest integer, halves going up. *)
Definition Math_round (x : Q) : Z := Qfloor (x + (1 # 2))%Q.

(** ** Tables *)

(** A row of [status_updates]. *)
Record Report := {
  r_id : Z;
  r_device_id : string;
  r_status : string;
  r_uptime_seconds : Z;
  r_ip_address : string;
  r_rssi : Z;
  r_free_heap : Z;
  r_is_boot : Z;
  r_timestamp : Z;
  r_server_timestamp : Datetime
}.

(** A row of [devices]. *)
Record Device := {
  d_device_id : string;
  d_last_seen : Datetime;
  d_total_uptime : Z;
  d_status : string
}.

Record Db := {
  status_updates : list Report;
  devices : list Device
}.

#[global] Instance Report_eq_dec : EqDecision Report.
Proof. solve_decision. Defined.
#[global] Instance Device_eq_dec : EqDecision Device.
Proof. solve_decision. Defined.

(** ** The request body of POST /api/status

    [req.body] after [express.json()]: an object in which each field the
    firmware sends may be present or not.  [None] is [undefined]. *)
Record Body := {
  b_device_id : option string;
  b_status : option string;
  b_uptime_seconds : option Z;
  b_ip_address : option string;
  b_rssi : option Z;
  b_free_heap : option Z;
  b_is_boot : option bool;
  b_timestamp : option Z
}.


(** [v || d] on a string field: [undefined] and the empty string are falsy. *)
Definition or_string (v : option string) (d : string) : string :=
  match v with
  | Some EmptyString => d
  | Some s => s
  | None => d
  end.

(** [v || d] on a numeric field: [undefined] and [0] are falsy. *)
Definition or_number (v : option Z) (d : Z) : Z :=
  match v with
  | Some 0 => d
  | Some n => n
  | None => d
  end.

(** [v ? 1 : 0] on a boolean field. *)
Definition truthy_01 (v : option bool) : Z :=
  match v with
  | Some true => 1
  | _ => 0
  end.

(** ** Console and responses *)

Inductive LogEntry :=
  | LogReceived (data : Body)
  | LogCameBackOnline (device_id : option string) (at_ : Millis)
  | LogWentOffline (device_id : string) (at_ : Millis)
  | LogDetectedOffline (device_id : string) (minutes : Z)
  | LogErrorCheckingDevices (err : string)
  | LogErrorInsertingMarker (err : string).

Record World := {
  db : Db;
  console : list LogEntry
}.

(** The synthetic object pushed by GET /api/history.  Its [server_timestamp]
    is an ISO string; the model keeps the instant it denotes. *)
Record OfflineMarker := {
  m_id : string;
  m_device_id : string;
  m_status : string;
  m_server_timestamp : Millis;
  m_is_offline_marker : bool
}.

Inductive HistoryRow :=
  | RealRow (r : Report)
  | MarkerRow (m : OfflineMarker).



Definition h_device_id (h : HistoryRow) : string :=
  match h with
  | RealRow r => r_device_id r
  | MarkerRow m => m_device_id m
  end.

(** The instant of a returned object's [server_timestamp]. *)
Definition h_time (h : HistoryRow) : Millis :=
  match h with
  | RealRow r => Date_parse (r_server_timestamp r)
  | MarkerRow m => m_server_timestamp m
  end.

Definition is_marker (h : HistoryRow) : bool :=
  match h with
  | RealRow _ => false
  | MarkerRow _ => true
  end.

Record StatusBody := {
  s_device_id : string;
  s_status : string;
  s_last_seen : Datetime;
  s_minutes_since_last_seen : Q;
  s_latest_update : option Report
}.

Record Stats := {
  total_updates : Z;
  first_seen : option Datetime;
  last_seen : option Datetime;
  boot_count : option Z
}.

Inductive Json :=
  | JPostOk (success : bool) (message : string)
  | JNoDevice (status message : string)
  | JStatus (b : StatusBody)
  | JHistory (rows : list HistoryRow)
  | JStats (s : Stats)
  | JError (error : string).

Record Response := {
  http_status : Z;
  body : Json
}.

(** [res.json(x)] and [res.status(500).json({ error: msg })]. *)
Definition res_json (x : Json) : Response := {| http_status := 200; body := x |}.
Definition res_500 (msg : string) : Response :=
  {| http_status := 500; body := JError msg |}.

(** ** Storage calls and their failures

    Every call into sqlite3 made by server.js is one [Op].  A fault plan says
    which calls fail and with which message; [no_faults] is a healthy
    database. *)
Inductive Op :=
  | PostInsertReport
  | PostSelectStatus
  | PostUpsertDevice
  | StatusSelectDevice
  | StatusUpdateOffline
  | StatusSelectLatest
  | HistorySelect
  | StatsSelect
  | SweepSelectDevices
  | SweepUpdateOffline
  | SweepInsertMarker.

Definition Faults := Op -> option string.

Definition no_faults : Faults := fun _ => None.

Inductive result (A : Type) :=
  | Ok (a : A)
  | Err (msg : string).
Arguments Ok {A} a.
Arguments Err {A} msg.

(** A read ([db.get], [db.all]): the callback receives the error or the rows. *)
Definition db_read {A} (f : Faults) (op : Op) (rows : A) : result A :=
  match f op with
  | Some msg => Err msg
  | None => Ok rows
  end.

(** A write ([stmt.run], [db.run]): a failed statement leaves the tables as
    they were; the error, if any, is what a callback would receive. *)
Definition db_write (f : Faults) (op : Op) (change : Db -> Db) (w : World)
  : World * option string :=
  match f op with
  | Some msg => (w, Some msg)
  | None => ({| db := change (db w); console := console w |}, None)
  end.

(** [console.log] / [console.error]. *)
Definition log (e : LogEntry) (w : World) : World :=
  {| db := db w; console := console w ++ [e] |}.

(** ** SQL statements *)

(** [INSERT INTO status_updates]: [id] is INTEGER PRIMARY KEY AUTOINCREMENT;
    no row is ever deleted, so the next id is the row count plus one. *)
Definition insert_status_update (device_id status : string)
    (uptime_seconds : Z) (ip_address : string) (rssi free_heap is_boot : Z)
    (timestamp : Z) (server_timestamp : Datetime) (d : Db) : Db :=
  {| status_updates := status_updates d ++
       [{| r_id := Z.of_nat (length (status_updates d)) + 1;
           r_device_id := device_id; r_status := status;
           r_uptime_seconds := uptime_seconds; r_ip_address := ip_address;
           r_rssi := rssi; r_free_heap := free_heap; r_is_boot := is_boot;
           r_timestamp := timestamp; r_server_timestamp := server_timestamp |}];
     devices := devices d |}.

(** [SELECT status FROM devices WHERE device_id = ?] through [db.get]. *)
Definition select_device (device_id : string) (d : Db) : option Device :=
  head (filter (fun dev => d_device_id dev = device_id) (devices d)).

(** [INSERT OR REPLACE INTO devices (device_id, last_seen, status)]: the row
    with this primary key, if any, is removed and a new row is added; the
    unlisted column [total_uptime] takes its DEFAULT 0. *)
Definition replace_device (device_id : string) (last_seen : Datetime)
    (status : string) (d : Db) : Db :=
  {| status_updates := status_updates d;
     devices := filter (fun dev => d_device_id dev <> device_id) (devices d) ++
       [{| d_device_id := device_id; d_last_seen := last_seen;
           d_total_uptime := 0; d_status := status |}] |}.

(** [SET status = 'offline'] on one row. *)
Definition set_offline (device : Device) : Device :=
  {| d_device_id := d_device_id device; d_last_seen := d_last_seen device;
     d_total_uptime := d_total_uptime device; d_status := "offline" |}.

(** [UPDATE devices SET status = 'offline' WHERE device_id = ?]. *)
Definition update_offline (device_id : string) (d : Db) : Db :=
  {| status_updates := status_updates d;
     devices := (fun dev =>
         if decide (d_device_id dev = device_id) then set_offline dev else dev)
       <$> devices d |}.

(** The first row with the largest key, in row order: [ORDER BY key DESC
    LIMIT 1].  SQL leaves the choice among equal keys open; the model takes
    the earliest row. *)
Definition max_by {A} (key : A -> Z) (l : list A) : option A :=
  foldl (fun best x =>
           match best with
           | None => Some x
           | Some b => if key b <? key x then Some x else Some b
           end) None l.

(** [SELECT * FROM devices ORDER BY last_seen DESC LIMIT 1]. *)
Definition select_latest_device (d : Db) : option Device :=
  max_by d_last_seen (devices d).

(** [SELECT * FROM status_updates WHERE device_id = ?
     ORDER BY server_timestamp DESC LIMIT 1]. *)
Definition select_latest_update (device_id : string) (d : Db) : option Report :=
  max_by r_server_timestamp
    (filter (fun r => r_device_id r = device_id) (status_updates d)).

(** [ORDER BY server_timestamp DESC]: a stable sort, newest first. *)
Definition newer_or_same (a b : Report) : Prop :=
  r_server_timestamp b <= r_server_timestamp a.

#[global] Instance newer_or_same_dec : RelDecision newer_or_same.
Proof. intros a b. unfold newer_or_same. apply _. Defined.

Definition order_by_server_timestamp_desc (l : list Report) : list Report :=
  merge_sort newer_or_same l.

(** [LIMIT n]: a negative bound means no bound in SQLite. *)
Definition sql_limit {A} (n : Z) (l : list A) : list A :=
  if n <? 0 then l else take (Z.to_nat n) l.

Definition select_history (limit : Z) (d : Db) : list Report :=
  sql_limit limit (order_by_server_timestamp_desc (status_updates d)).

(** The aggregate query of /api/stats.  MIN, MAX and SUM are NULL on an empty
    table. *)
Definition min_list (l : list Z) : option Z :=
  foldr (fun x acc => match acc with None => Some x | Some m => Some (Z.min x m) end) None l.
Definition max_list (l : list Z) : option Z :=
  foldr (fun x acc => match acc with None => Some x | Some m => Some (Z.max x m) end) None l.

Definition select_stats (d : Db) : list Stats :=
  let rows := status_updates d in
  [{| total_updates := Z.of_nat (length rows);
      first_seen := min_list (r_server_timestamp <$> rows);
      last_seen := max_list (r_server_timestamp <$> rows);
      boot_count :=
        match rows with
        | [] => None
        | _ => Some (foldr Z.add 0
                 ((fun r => if r_is_boot r =? 1 then 1 else 0) <$> rows))
        end |}].

(** ** POST /api/status *)

Definition post_status (f : Faults) (now : Millis) (data : Body) (w : World)
  : World * Response :=
  let w := log (LogReceived data) w in
  let w := fst (db_write f PostInsertReport
    (insert_status_update
       (or_string (b_device_id data) "unknown")
       (or_string (b_status data) "online")
       (or_number (b_uptime_seconds data) 0)
       (or_string (b_ip_address data) EmptyString)
       (or_number (b_rssi data) 0)
       (or_number (b_free_heap data) 0)
       (truthy_01 (b_is_boot data))
       (or_number (b_timestamp data) now)
       (CURRENT_TIMESTAMP now)) w) in
  (* Check if device was offline and just came back online *)
  let w :=
    match db_read f PostSelectStatus
            (select_device (or_string (b_device_id data) "unknown") (db w)) with
    | Ok (Some device) =>
        if decide (d_status device = "offline")
        then log (LogCameBackOnline (b_device_id data) now) w
        else w
    | Ok None => w
    | Err _ => w
    end in
  (* Update device record *)
  let w := fst (db_write f PostUpsertDevice
    (replace_device
       (or_string (b_device_id data) "unknown")
       (CURRENT_TIMESTAMP now)
       (or_string (b_status data) "online")) w) in
  (w, res_json (JPostOk true "Status received")).

(** ** GET /api/status *)

Definition minutesSinceLastSeen (now : Millis) (device : Device) : Q :=
  minutes_between now (Date_parse (d_last_seen device)).

Definition isOnline (now : Millis) (device : Device) : bool :=
  Qltb (minutesSinceLastSeen now device) 1.

(** [isOnline ? 'online' : 'offline'], the status the read path reports. *)
Definition inferred_status (now : Millis) (device : Device) : string :=
  if isOnline now device then "online" else "offline".

Definition get_status (f : Faults) (now : Millis) (w : World)
  : World * Response :=
  match db_read f StatusSelectDevice (select_latest_device (db w)) with
  | Err msg => (w, res_500 msg)
  | Ok None => (w, res_json (JNoDevice "offline" "No device data"))
  | Ok (Some device) =>
      (* Log offline event if device just went offline *)
      let w :=
        if negb (isOnline now device) && bool_decide (d_status device = "online")
        then fst (db_write f StatusUpdateOffline
                    (update_offline (d_device_id device))
                    (log (LogWentOffline (d_device_id device) now) w))
        else w in
      match db_read f StatusSelectLatest
              (select_latest_update (d_device_id device) (db w)) with
      | Err msg => (w, res_500 msg)
      | Ok latest =>
          (w, res_json (JStatus
            {| s_device_id := d_device_id device;
               s_status := inferred_status now device;
               s_last_seen := d_last_seen device;
               s_minutes_since_last_seen :=
                 (inject_Z (Math_round (minutesSinceLastSeen now device * 10)) / 10)%Q;
               s_latest_update := latest |}))
      end
  end.

(** ** GET /api/history *)

(** [parseInt(string)]: leading (ASCII) white space, an optional sign, an
    optional [0x] prefix, then the longest run of digits of the radix; [None]
    is NaN, which is also what [parseInt(undefined)] gives. *)
Definition is_white_space (c : ascii) : bool :=
  let n := Z.of_nat (nat_of_ascii c) in
  (9 <=? n) && (n <=? 13) || (n =? 32).

Fixpoint skip_white_space (s : string) : string :=
  match s with
  | String c s' => if is_white_space c then skip_white_space s' else s
  | EmptyString => s
  end.

Definition digit_value (c : ascii) : option Z :=
  let n := Z.of_nat (nat_of_ascii c) in
  if (48 <=? n) && (n <=? 57) then Some (n - 48)
  else if (97 <=? n) && (n <=? 122) then Some (n - 87)
  else if (65 <=? n) && (n <=? 90) then Some (n - 55)
  else None.

Fixpoint parse_digits (radix : Z) (acc : option Z) (s : string) : option Z :=
  match s with
  | String c s' =>
      match digit_value c with
      | Some v =>
          if v <? radix
          then parse_digits radix (Some (radix * default 0 acc + v)) s'
          else acc
      | None => acc
      end
  | EmptyString => acc
  end.

Definition parseInt (x : option string) : option Z :=
  match x with
  | None => None
  | Some s =>
      let s := skip_white_space s in
      let '(sign, s) :=
        match s with
        | String "-"%char s' => (-1, s')
        | String "+"%char s' => (1, s')
        | _ => (1, s)
        end in
      let '(radix, s) :=
        match s with
        | String "0"%char (String "x"%char s') => (16, s')
        | String "0"%char (String "X"%char s') => (16, s')
        | _ => (10, s)
        end in
      Z.mul sign <$> parse_digits radix None s
  end.

(** [`offline_${i}`]. *)
Definition offline_id (i : nat) : string := "offline_" +:+ pretty i.

(** The object pushed after [rows[i]] when the gap to [rows[i + 1]] is more
    than one minute. *)
Definition gapMinutes (row_i row_next : Report) : Q :=
  minutes_between (Date_parse (r_server_timestamp row_i))
                  (Date_parse (r_server_timestamp row_next)).

Definition offline_marker (i : nat) (row_i row_next : Report) : OfflineMarker :=
  {| m_id := offline_id i;
     m_device_id := r_device_id row_i;
     m_status := "offline";
     m_server_timestamp :=
       Date_of_number
         (inject_Z (Date_parse (r_server_timestamp row_i))
          - gapMinutes row_i row_next * 60 * 1000 / 2)%Q;
     m_is_offline_marker := true |}.

(** One iteration of [for (let i = 0; i < rows.length; i++)]. *)
Definition history_loop_body (rows : list Report)
    (processedRows : list HistoryRow) (i : nat) : list HistoryRow :=
  match rows !! i with
  | None => processedRows
  | Some row_i =>
      let processedRows := processedRows ++ [RealRow row_i] in
      if Z.of_nat i <? Z.of_nat (length rows) - 1 then
        match rows !! (i + 1)%nat with
        | None => processedRows
        | Some row_next =>
            if Qgtb (gapMinutes row_i row_next) 1
            then processedRows ++ [MarkerRow (offline_marker i row_i row_next)]
            else processedRows
        end
      else processedRows
  end.

Definition add_offline_markers (rows : list Report) : list HistoryRow :=
  foldl (history_loop_body rows) [] (seq 0 (length rows)).

Definition get_history (f : Faults) (limit_param : option string) (w : World)
  : World * Response :=
  let limit := or_number (parseInt limit_param) 100 in
  match db_read f HistorySelect (select_history limit (db w)) with
  | Err msg => (w, res_500 msg)
  | Ok rows => (w, res_json (JHistory (reverse (add_offline_markers rows))))
  end.

(** ** GET /api/stats *)

Definition empty_stats : Stats :=
  {| total_updates := 0; first_seen := None; last_seen := None;
     boot_count := None |}.

Definition get_stats (f : Faults) (w : World) : World * Response :=
  match db_read f StatsSelect (select_stats (db w)) with
  | Err msg => (w, res_500 msg)
  | Ok stats => (w, res_json (JStats (default empty_stats (head stats))))
  end.

(** ** The background sweep, [setInterval(..., 60000)] *)

(** [minutesSinceLastSeen >= 1], the staleness test of the sweep. *)
Definition noUpdateInOneMinute (now : Millis) (device : Device) : bool :=
  Qgeb (minutesSinceLastSeen now device) 1.

Definition sweep_device (f : Faults) (now : Millis) (w : World)
    (device : Device) : World :=
  if noUpdateInOneMinute now device
     && bool_decide (d_status device = "online")
  then
    let w := log (LogDetectedOffline (d_device_id device)
                    (Math_round (minutesSinceLastSeen now device))) w in
    let w := fst (db_write f SweepUpdateOffline
                    (update_offline (d_device_id device)) w) in
    (* Insert offline marker into status_updates for graph *)
    match db_write f SweepInsertMarker
            (insert_status_update (d_device_id device) "offline" 0 EmptyString 0 0 0
               now (CURRENT_TIMESTAMP now)) w with
    | (w, Some err) => log (LogErrorInsertingMarker err) w
    | (w, None) => w
    end
  else w.

Definition sweep (f : Faults) (now : Millis) (w : World) : World :=
  match db_read f SweepSelectDevices (devices (db w)) with
  | Err err => log (LogErrorCheckingDevices err) w
  | Ok devices => foldl (sweep_device f now) w devices
  end.

(** ** Runs of the server *)

(** What can happen to the server: a request or a timer tick, each with the
    clock reading and the storage faults it meets. *)
Inductive Event :=
  | EPostStatus (f : Faults) (now : Millis) (data : Body)
  | EGetStatus (f : Faults) (now : Millis)
  | EGetHistory (f : Faults) (limit_param : option string)
  | EGetStats (f : Faults)
  | ESweep (f : Faults) (now : Millis).

Definition step (w : World) (e : Event) : World :=
  match e with
  | EPostStatus f now data => fst (post_status f now data w)
  | EGetStatus f now => fst (get_status f now w)
  | EGetHistory f limit_param => fst (get_history f limit_param w)
  | EGetStats f => fst (get_stats f w)
  | ESweep f now => sweep f now w
  end.

(** The tables after [CREATE TABLE IF NOT EXISTS] on a new database. *)
Definition initial_world : World :=
  {| db := {| status_updates := []; devices := [] |}; console := [] |}.

Definition run (events : list Event) : World := foldl step initial_world events.

(** ** Views used by the statements *)

(** The rows of [status_updates] of one device. *)
Definition reports_of (device_id : string) (w : World) : list Report :=
  filter (fun r => r_device_id r = device_id) (status_updates (db w)).

(** The offline transitions the sweep has logged for one device. *)
Definition is_offline_detection (device_id : string) (e : LogEntry) : bool :=
  match e with
  | LogDetectedOffline d _ => bool_decide (d = device_id)
  | _ => false
  end.

Definition offline_detections_of (device_id : string) (w : World)
  : list LogEntry :=
  filter (fun e => is_offline_detection device_id e = true) (console w).

(** Each device with its [last_seen], in row order. *)
Definition last_seen_of (w : World) : list (string * Datetime) :=
  (fun device => (d_device_id device, d_last_seen device)) <$> devices (db w).

(** The stored rows among the objects of a history response. *)
Definition stored_rows (out : list HistoryRow) : list Report :=
  omap (fun h => match h with RealRow r => Some r | MarkerRow _ => None end) out.

Definition markers (out : list HistoryRow) : list OfflineMarker :=
  omap (fun h => match h with RealRow _ => None | MarkerRow m => Some m end) out.

(** The Gap Synthesizer as the specification words it: walk the adjacent
    pairs (current, next) of the descending sequence, keep every report and
    put one marker after [current] when the gap to [next] exceeds the
    threshold.  [i] is the position of the head of [rows]. *)
Fixpoint synthesize_gaps (i : nat) (rows : list Report) : list HistoryRow :=
  match rows with
  | [] => []
  | current :: rest =>
      RealRow current ::
      match rest with
      | next :: _ =>
          if Qgtb (gapMinutes current next) 1
          then [MarkerRow (offline_marker i current next)]
          else []
      | [] => []
      end ++ synthesize_gaps (S i) rest
  end.

(** The limit a request asks for: the parsed parameter, 100 when it is
    absent or does not parse. *)
Definition requested_limit (limit_param : option string) : Z :=
  default 100 (parseInt limit_param).

(** ** Sample data for the worked instances *)

Definition sample_report (id : Z) (device_id : string)
    (server_timestamp : Datetime) : Report :=
  {| r_id := id; r_device_id := device_id; r_status := "online";
     r_uptime_seconds := 0; r_ip_address := EmptyString; r_rssi := 0; r_free_heap := 0;
     r_is_boot := 0; r_timestamp := 0; r_server_timestamp := server_timestamp |}.

(** Three reports of two devices, newest first: at 300 s, 60 s and 0 s. *)
Definition sample_rows : list Report :=
  [sample_report 3 "esp32-a" 300; sample_report 2 "esp32-b" 60;
   sample_report 1 "esp32-a" 0].

(** The same instants, all reported by one device. *)
Definition sample_rows_one_device : list Report :=
  [sample_report 3 "esp32-a" 300; sample_report 2 "esp32-a" 60;
   sample_report 1 "esp32-a" 0].

(** A run that stores three reports of two devices, at 0 s, 60 s and 300 s
    of server time. *)
Definition body_of (device_id status : string) : Body :=
  {| b_device_id := Some device_id; b_status := Some status;
     b_uptime_seconds := None; b_ip_address := None; b_rssi := None;
     b_free_heap := None; b_is_boot := None; b_timestamp := None |}.

Definition sample_events : list Event :=
  [EPostStatus no_faults 0 (body_of "esp32-a" "online");
   EPostStatus no_faults 60000 (body_of "esp32-b" "online");
   EPostStatus no_faults 300000 (body_of "esp32-a" "online")].


(** The body with its client [timestamp] replaced. *)
Definition with_timestamp (data : Body) (timestamp : option Z) : Body :=
  {| b_device_id := b_device_id data; b_status := b_status data;
     b_uptime_seconds := b_uptime_seconds data;
     b_ip_address := b_ip_address data; b_rssi := b_rssi data;
     b_free_heap := b_free_heap data; b_is_boot := b_is_boot data;
     b_timestamp := timestamp |}.

(** What a handler has written to the console. *)
Definition new_entries (before after : World) : list LogEntry :=
  drop (length (console before)) (console after).

(** The row the sweep inserts for a device found offline; [id] is the next
    free id of [status_updates]. *)
Definition sweep_marker (id : Z) (device_id : string) (now : Millis) : Report :=
  {| r_id := id; r_device_id := device_id; r_status := "offline";
     r_uptime_seconds := 0; r_ip_address := EmptyString; r_rssi := 0; r_free_heap := 0;
     r_is_boot := 0; r_timestamp := now;
     r_server_timestamp := CURRENT_TIMESTAMP now |}.

(** The clock reading an event carries; the two plain reads carry none. *)
Definition event_time (e : Event) : option Millis :=
  match e with
  | EPostStatus _ now _ => Some now
  | EGetStatus _ now => Some now
  | EGetHistory _ _ => None
  | EGetStats _ => None
  | ESweep _ now => Some now
  end.

(** The clock never goes back along the events, starting at [t]. *)
Fixpoint clock_from (t : Millis) (events : list Event) : Prop :=
  match events with
  | [] => True
  | e :: events =>
      match event_time e with
      | Some t' => t <= t' /\ clock_from t' events
      | None => clock_from t events
      end
  end.

(** AUTOINCREMENT as the table shows it: the row at position [i] has id
    [i + 1]. *)
Definition ids_in_order (d : Db) : Prop :=
  forall i r, status_updates d !! i = Some r -> r_id r = Z.of_nat i + 1.

(** No stored [device_id] or [status] is the empty string. *)
Definition no_empty_tags (d : Db) : Prop :=
  Forall (fun dev => d_device_id dev <> EmptyString /\ d_status dev <> EmptyString)
         (devices d) /\
  Forall (fun r => r_device_id r <> EmptyString /\ r_status r <> EmptyString)
         (status_updates d).

(** The reports are stored in the order of their [server_timestamp], none
    later than the second of [t]. *)
Definition timestamps_up_to (t : Millis) (d : Db) : Prop :=
  StronglySorted Z.le (r_server_timestamp <$> status_updates d) /\
  Forall (fun r => r_server_timestamp r <= CURRENT_TIMESTAMP t)
         (status_updates d).

(** The test of the sweep on one device row: no update for a minute or
    more, and stored as "online". *)
Definition detected_offline (now : Millis) (device : Device) : bool :=
  noUpdateInOneMinute now device && bool_decide (d_status device = "online").

#[global] Instance Op_eq_dec : EqDecision Op.
Proof. solve_decision. Defined.

(** A database on which one call site fails and every other call works. *)
Definition failing_only (op0 : Op) (msg : string) : Faults :=
  fun op => if decide (op = op0) then Some msg else None.

(** The faults an event meets. *)
Definition event_faults (e : Event) : Faults :=
  match e with
  | EPostStatus f _ _ => f
  | EGetStatus f _ => f
  | EGetHistory f _ => f
  | EGetStats f => f
  | ESweep f _ => f
  end.

(** The body with every present but falsy field (empty string, 0, false)
    taken out. *)
Definition truthy_string (v : option string) : option string :=
  match v with
  | Some EmptyString => None
  | _ => v
  end.

Definition truthy_number (v : option Z) : option Z :=
  match v with
  | Some 0 => None
  | _ => v
  end.

Definition truthy_bool (v : option bool) : option bool :=
  match v with
  | Some false => None
  | _ => v
  end.

Definition without_falsy (data : Body) : Body :=
  {| b_device_id := truthy_string (b_device_id data);
     b_status := truthy_string (b_status data);
     b_uptime_seconds := truthy_number (b_uptime_seconds data);
     b_ip_address := truthy_string (b_ip_address data);
     b_rssi := truthy_number (b_rssi data);
     b_free_heap := truthy_number (b_free_heap data);
     b_is_boot := truthy_bool (b_is_boot data);
     b_timestamp := truthy_number (b_timestamp data) |}.

(** Every stored report belongs to a device that has a row. *)
Definition reports_have_devices (d : Db) : Prop :=
  forall r, r ∈ status_updates d ->
            r_device_id r ∈ d_device_id <$> devices d.

(** * Properties *)

(** ** Arithmetic of the threshold *)

Lemma Qltb_lt x y : Qltb x y = true <-> (x < y)%Q.
Proof. unfold Qltb, Qlt. apply Z.ltb_lt. Qed.

Lemma Qgeb_le x y : Qgeb x y = true <-> (y <= x)%Q.
Proof. unfold Qgeb, Qle. apply Z.leb_le. Qed.

Lemma Qgtb_lt x y : Qgtb x y = true <-> (y < x)%Q.
Proof. unfold Qgtb, Qlt. apply Z.ltb_lt. Qed.

Lemma Qgeb_negb_Qltb x y : Qgeb x y = negb (Qltb x y).
Proof. unfold Qgeb, Qltb. rewrite Z.leb_antisym. reflexivity. Qed.

Lemma minutes_between_lt_1 a b : (minutes_between a b < 1)%Q <-> a - b < 60000.
Proof. unfold minutes_between, Qlt. cbn. lia. Qed.

Lemma minutes_between_gt_1 a b : (1 < minutes_between a b)%Q <-> 60000 < a - b.
Proof. unfold minutes_between, Qlt. cbn. lia. Qed.

Lemma minutes_between_eq_1 a b : (minutes_between a b == 1)%Q <-> a - b = 60000.
Proof. unfold minutes_between, Qeq. cbn. lia. Qed.

Lemma Date_of_number_inject q z : (q == inject_Z z)%Q -> Date_of_number q = z.
Proof.
  unfold Qeq, Date_of_number. cbn. intros H. rewrite Z.mul_1_r in H.
  rewrite H. apply Z.quot_mul. lia.
Qed.

(** ** Liveness *)

(** C2. The status inferred on the read path is "online" exactly when the
    minutes since [last_seen] are strictly below 1, and "offline" otherwise;
    at exactly one minute the device is offline; and the staleness test of
    the sweep ([>= 1]) is the complement of the read path's [isOnline]
    ([< 1]).  In milliseconds the boundary is [now - lastSeen < 60000]. *)
Theorem liveness_evaluation (now : Millis) (device : Device) :
  let m := minutesSinceLastSeen now device in
  (inferred_status now device = "online" <-> (m < 1)%Q) /\
  (inferred_status now device = "offline" <-> ~ (m < 1)%Q) /\
  ((m == 1)%Q -> inferred_status now device = "offline") /\
  ((m < 1)%Q <-> now - Date_parse (d_last_seen device) < 60000) /\
  noUpdateInOneMinute now device = negb (isOnline now device) /\
  (noUpdateInOneMinute now device = true <-> (1 <= m)%Q).
Proof.
  intros m.
  assert (Hms : (m < 1)%Q <-> now - Date_parse (d_last_seen device) < 60000)
    by apply minutes_between_lt_1.
  assert (Hge : noUpdateInOneMinute now device = true <-> (1 <= m)%Q)
    by apply Qgeb_le.
  assert (Hneg : noUpdateInOneMinute now device = negb (isOnline now device))
    by apply Qgeb_negb_Qltb.
  unfold inferred_status.
  assert (Hlt : isOnline now device = true <-> (m < 1)%Q) by apply Qltb_lt.
  destruct (isOnline now device).
  - assert (Hm : (m < 1)%Q) by (apply Hlt; reflexivity).
    repeat split; try tauto; try discriminate.
    intros Heq. rewrite Heq in Hm. exfalso. revert Hm. apply Qlt_irrefl.
  - assert (Hm : ~ (m < 1)%Q) by (intros Hm; apply Hlt in Hm; discriminate).
    repeat split; try tauto; try discriminate.
Qed.

(** The read path answers with the inferred status of the most recently
    seen device. *)
Lemma get_status_inferred_status (f : Faults) (now : Millis) (w : World)
    (device : Device) :
  select_latest_device (db w) = Some device ->
  f StatusSelectDevice = None -> f StatusSelectLatest = None ->
  exists b,
    snd (get_status f now w) = res_json (JStatus b) /\
    s_device_id b = d_device_id device /\
    s_status b = inferred_status now device.
Proof.
  intros Hdev Hf1 Hf2. unfold get_status, db_read. rewrite Hf1, Hdev, Hf2.
  eexists. split; [reflexivity|]. split; reflexivity.
Qed.

(** ** The gap synthesizer *)

Section gap_synthesizer.
Implicit Types (rows : list Report) (out : list HistoryRow).

(** The [for] loop of the handler computes the walk over adjacent pairs. *)
Lemma history_loop_synthesize_gaps rows pre acc :
  foldl (history_loop_body (pre ++ rows)) acc
        (seq (length pre) (length rows))
  = acc ++ synthesize_gaps (length pre) rows.
Proof.
  revert pre acc. induction rows as [|current rest IH]; intros pre acc.
  - cbn. by rewrite app_nil_r.
  - cbn [length seq foldl].
    replace (pre ++ current :: rest) with ((pre ++ [current]) ++ rest)
      by (by rewrite <- app_assoc).
    specialize (IH (pre ++ [current])).
    rewrite length_app in IH. cbn [length] in IH.
    replace (length pre + 1)%nat with (S (length pre)) in IH by lia.
    rewrite IH. clear IH.
    unfold history_loop_body.
    rewrite <- app_assoc. cbn [app].
    rewrite (list_lookup_middle pre rest current (length pre) eq_refl).
    rewrite length_app. cbn [length synthesize_gaps].
    destruct rest as [|next rest'].
    + cbn [length].
      replace (Z.of_nat (length pre) <? Z.of_nat (length pre + 1) - 1)
        with false by (symmetry; apply Z.ltb_ge; lia).
      cbn. by rewrite <- app_assoc.
    + cbn [length].
      replace (Z.of_nat (length pre) <?
               Z.of_nat (length pre + S (S (length rest'))) - 1)
        with true by (symmetry; apply Z.ltb_lt; lia).
      replace (pre ++ current :: next :: rest')
        with ((pre ++ [current]) ++ next :: rest')
        by (by rewrite <- app_assoc).
      rewrite (list_lookup_middle (pre ++ [current]) rest' next
                 (length pre + 1)) by (rewrite length_app; cbn; lia).
      destruct (Qgtb (gapMinutes current next) 1);
        rewrite <- ?app_assoc; reflexivity.
Qed.

Lemma add_offline_markers_synthesize_gaps rows :
  add_offline_markers rows = synthesize_gaps 0 rows.
Proof.
  unfold add_offline_markers.
  apply (history_loop_synthesize_gaps rows [] []).
Qed.

Lemma stored_rows_app out1 out2 :
  stored_rows (out1 ++ out2) = stored_rows out1 ++ stored_rows out2.
Proof. unfold stored_rows. apply omap_app. Qed.

Lemma stored_rows_reverse out :
  stored_rows (reverse out) = reverse (stored_rows out).
Proof.
  induction out as [|h out IH]; [done|].
  rewrite reverse_cons, stored_rows_app, IH.
  destruct h as [r|m].
  - change (stored_rows (RealRow r :: out)) with (r :: stored_rows out).
    by rewrite reverse_cons.
  - change (stored_rows (MarkerRow m :: out)) with (stored_rows out).
    apply app_nil_r.
Qed.

Lemma stored_rows_synthesize_gaps i rows :
  stored_rows (synthesize_gaps i rows) = rows.
Proof.
  revert i. induction rows as [|current rest IH]; intros i; [done|].
  cbn [synthesize_gaps]. change (RealRow current :: ?l) with ([RealRow current] ++ l).
  rewrite !stored_rows_app, IH.
  destruct rest as [|next rest']; [done|].
  by destruct (Qgtb (gapMinutes current next) 1).
Qed.

(** The walk up to position [j] and the walk from position [j] on. *)
Lemma synthesize_gaps_split i (l1 : list Report) x l2 :
  exists P, stored_rows P = l1 /\
    synthesize_gaps i (l1 ++ x :: l2)
    = P ++ synthesize_gaps (i + length l1) (x :: l2).
Proof.
  revert i. induction l1 as [|a l1 IH]; intros i.
  - exists []. split; [done|]. by rewrite Nat.add_0_r.
  - destruct (IH (S i)) as (P & HP & Heq).
    cbn [app synthesize_gaps]. rewrite Heq.
    replace (S i + length l1)%nat with (i + length (a :: l1))%nat
      by (cbn; lia).
    set (mid := match l1 ++ x :: l2 with
                | [] => []
                | next :: _ =>
                    if Qgtb (gapMinutes a next) 1
                    then [MarkerRow (offline_marker i a next)] else []
                end).
    exists (RealRow a :: mid ++ P). split.
    + change (RealRow a :: mid ++ P) with ([RealRow a] ++ mid ++ P).
      rewrite !stored_rows_app, HP.
      assert (stored_rows mid = []) as ->; [|done].
      unfold mid. destruct (l1 ++ x :: l2); [done|].
      by destruct (Qgtb _ _).
    + cbn [app]. by rewrite <- app_assoc.
Qed.

Lemma synthesize_gaps_pair i rows j current next :
  rows !! j = Some current -> rows !! S j = Some next ->
  exists P S,
    stored_rows P = take j rows /\
    synthesize_gaps i rows
    = P ++ RealRow current ::
        (if Qgtb (gapMinutes current next) 1
         then [MarkerRow (offline_marker (i + j) current next)] else [])
        ++ RealRow next :: S.
Proof.
  intros Hj HSj.
  assert (rows = take j rows ++ current :: next :: drop (S (S j)) rows) as Hrows.
  { rewrite <- (take_drop j rows) at 1. f_equal.
    rewrite (drop_S rows current j Hj). f_equal.
    apply (drop_S rows next (S j) HSj). }
  destruct (synthesize_gaps_split i (take j rows) current
              (next :: drop (S (S j)) rows)) as (P & HP & Heq).
  rewrite <- Hrows in Heq.
  assert (length (take j rows) = j) as Hlen.
  { rewrite length_take. apply lookup_lt_Some in Hj. lia. }
  rewrite Hlen in Heq.
  cbn [synthesize_gaps] in Heq.
  eexists P, _. split; [exact HP|].
  rewrite Heq. reflexivity.
Qed.
End gap_synthesizer.

Section gap_markers.
Implicit Types (rows : list Report) (out : list HistoryRow).


(** Every marker of the walk belongs to an adjacent pair whose gap exceeds
    one minute. *)
Lemma synthesize_gaps_marker i rows m :
  MarkerRow m ∈ synthesize_gaps i rows ->
  exists j current next,
    rows !! j = Some current /\ rows !! S j = Some next /\
    (1 < gapMinutes current next)%Q /\
    m = offline_marker (i + j) current next.
Proof.
  revert i. induction rows as [|current rest IH]; intros i Hin.
  - by apply elem_of_nil in Hin.
  - cbn [synthesize_gaps] in Hin.
    apply elem_of_cons in Hin as [Hin|Hin]; [discriminate|].
    apply elem_of_app in Hin as [Hin|Hin].
    + destruct rest as [|next rest']; [by apply elem_of_nil in Hin|].
      destruct (Qgtb (gapMinutes current next) 1) eqn:Hgap;
        [|by apply elem_of_nil in Hin].
      apply list_elem_of_singleton in Hin. injection Hin as ->.
      exists 0%nat, current, next. rewrite Nat.add_0_r.
      repeat split; [by apply Qgtb_lt].
    + destruct (IH _ Hin) as (j & c & n & Hj & HSj & Hgap & ->).
      exists (S j), c, n. repeat split; try done.
      f_equal. lia.
Qed.

Lemma markers_app out1 out2 : markers (out1 ++ out2) = markers out1 ++ markers out2.
Proof. unfold markers. apply omap_app. Qed.



Lemma markers_reverse out : markers (reverse out) ≡ₚ markers out.
Proof.
  unfold markers. apply omap_Permutation. apply reverse_Permutation.
Qed.

(** The instant of a marker is the midpoint of its pair. *)
Lemma marker_time i current next :
  m_server_timestamp (offline_marker i current next)
  = 500 * r_server_timestamp current + 500 * r_server_timestamp next.
Proof.
  unfold offline_marker; cbn [m_server_timestamp].
  apply Date_of_number_inject.
  unfold gapMinutes, minutes_between, Date_parse, Qeq. cbn. lia.
Qed.


(** Newest first in, newest first out: the walk keeps the order. *)
Lemma synthesize_gaps_descending i rows :
  Sorted newer_or_same rows ->
  Sorted (flip Z.le) (h_time <$> synthesize_gaps i rows).
Proof.
  revert i. induction rows as [|current rest IH]; intros i Hs; [constructor|].
  apply Sorted_inv in Hs as [Hs Hhd].
  specialize (IH (S i) Hs).
  cbn [synthesize_gaps fmap list_fmap].
  destruct rest as [|next rest'].
  - cbn. repeat constructor.
  - apply HdRel_inv in Hhd. unfold newer_or_same in Hhd.
    cbn [synthesize_gaps fmap list_fmap app] in IH |- *.
    destruct (Qgtb (gapMinutes current next) 1).
    + cbn [app fmap list_fmap h_time]. rewrite marker_time.
      constructor; [constructor; [exact IH|]|];
        constructor; unfold flip, h_time, Date_parse; lia.
    + cbn [app fmap list_fmap].
      constructor; [exact IH|].
      constructor. unfold flip, h_time, Date_parse. lia.
Qed.

Lemma history_chronological rows :
  Sorted newer_or_same rows ->
  Sorted Z.le (h_time <$> reverse (add_offline_markers rows)).
Proof.
  intros Hs. rewrite add_offline_markers_synthesize_gaps, fmap_reverse.
  apply (Sorted_reverse (flip Z.le)).
  by apply synthesize_gaps_descending.
Qed.
End gap_markers.



(** ** Gap synthesis does not look at device ids *)

Lemma gapMinutes_timestamps (a b a' b' : Report) :
  r_server_timestamp a = r_server_timestamp a' ->
  r_server_timestamp b = r_server_timestamp b' ->
  gapMinutes a b = gapMinutes a' b'.
Proof. unfold gapMinutes. by intros -> ->. Qed.

Lemma synthesize_gaps_timestamps i (rows rows' : list Report) :
  r_server_timestamp <$> rows = r_server_timestamp <$> rows' ->
  (fun h => (is_marker h, h_time h)) <$> synthesize_gaps i rows
  = (fun h => (is_marker h, h_time h)) <$> synthesize_gaps i rows'.
Proof.
  revert i rows'. induction rows as [|a rest IH]; intros i rows' Heq.
  - destruct rows'; [done | discriminate].
  - destruct rows' as [|a' rest']; [discriminate|].
    injection Heq as Ha Hrest.
    cbn [synthesize_gaps fmap list_fmap]. rewrite !fmap_app.
    rewrite (IH (S i) rest' Hrest).
    cbn [is_marker h_time]. rewrite Ha. f_equal. f_equal.
    destruct rest as [|b rest2], rest' as [|b' rest2']; try done.
    injection Hrest as Hb _.
    rewrite (gapMinutes_timestamps a b a' b' Ha Hb).
    destruct (Qgtb (gapMinutes a' b') 1); [|done].
    cbn [fmap list_fmap is_marker h_time]. rewrite !marker_time.
    by rewrite Ha, Hb.
Qed.

(** C10. Whether a marker is inserted between two adjacent rows depends on
    their [server_timestamp]s only: two result sets with the same timestamps,
    whatever their device ids, get markers at the same places and instants.
    A pair whose gap exceeds one minute gets its marker also when the two
    rows belong to different devices, and every marker carries the
    [device_id] of the more recent row of its pair. *)
Theorem gap_synthesis_device_blind (rows rows' : list Report)
    (Htimes : r_server_timestamp <$> rows = r_server_timestamp <$> rows') :
  is_marker <$> add_offline_markers rows
    = is_marker <$> add_offline_markers rows' /\
  h_time <$> add_offline_markers rows = h_time <$> add_offline_markers rows' /\
  (forall i current next,
     rows !! i = Some current -> rows !! S i = Some next ->
     (1 < gapMinutes current next)%Q ->
     MarkerRow (offline_marker i current next) ∈ add_offline_markers rows /\
     m_device_id (offline_marker i current next) = r_device_id current /\
     h_time (RealRow next) < h_time (RealRow current)) /\
  (forall m, MarkerRow m ∈ add_offline_markers rows ->
     exists i current next,
       rows !! i = Some current /\ rows !! S i = Some next /\
       (1 < gapMinutes current next)%Q /\
       m_device_id m = r_device_id current).
Proof.
  rewrite !add_offline_markers_synthesize_gaps.
  pose proof (synthesize_gaps_timestamps 0 rows rows' Htimes) as Heq.
  split; [|split; [|split]].
  - apply (f_equal (fmap fst)) in Heq.
    by rewrite <- !list_fmap_compose in Heq.
  - apply (f_equal (fmap snd)) in Heq.
    by rewrite <- !list_fmap_compose in Heq.
  - intros i current next Hi HSi Hgap.
    split; [|split; [reflexivity|]].
    + destruct (synthesize_gaps_pair 0 rows i current next Hi HSi)
        as (P & S & _ & ->).
      apply Qgtb_lt in Hgap. rewrite Hgap. cbn [Nat.add].
      apply elem_of_app. right. apply elem_of_cons. right.
      apply elem_of_cons. by left.
    + apply minutes_between_gt_1 in Hgap. unfold h_time, Date_parse in *. lia.
  - intros m Hm. apply synthesize_gaps_marker in Hm
      as (j & c & n & Hj & HSj & Hgap & ->).
    by exists j, c, n.
Qed.

(** The theorem at the sample rows: the two result sets have the same
    timestamps, and the marker between the report of esp32-a at 300 s and the
    report of esp32-b at 60 s is attributed to esp32-a. *)
Lemma gap_synthesis_device_blind_witness :
  r_server_timestamp <$> sample_rows
    = r_server_timestamp <$> sample_rows_one_device /\
  is_marker <$> add_offline_markers sample_rows
    = is_marker <$> add_offline_markers sample_rows_one_device /\
  MarkerRow (offline_marker 0 (sample_report 3 "esp32-a" 300)
                              (sample_report 2 "esp32-b" 60))
    ∈ add_offline_markers sample_rows /\
  r_device_id (sample_report 3 "esp32-a" 300)
    <> r_device_id (sample_report 2 "esp32-b" 60).
Proof.
  split; [reflexivity|].
  pose proof (gap_synthesis_device_blind sample_rows sample_rows_one_device
                eq_refl) as (H1 & _ & H3 & _).
  split; [exact H1|].
  split; [|discriminate].
  refine (proj1 (H3 0%nat _ _ eq_refl eq_refl _)).
  apply minutes_between_gt_1. vm_compute. reflexivity.
Defined.

(** ** The size of a history response *)

Lemma length_stored_rows_markers (out : list HistoryRow) :
  length out = (length (stored_rows out) + length (markers out))%nat.
Proof.
  induction out as [|h out IH]; [done|].
  destruct h; cbn [length]; unfold stored_rows, markers in *; cbn; lia.
Qed.

Lemma length_markers_synthesize_gaps i (rows : list Report) :
  (length (markers (synthesize_gaps i rows)) <= pred (length rows))%nat.
Proof.
  revert i. induction rows as [|current rest IH]; intros i; [done|].
  cbn [synthesize_gaps].
  change (markers (RealRow current :: ?l)) with (markers l).
  rewrite markers_app, length_app. specialize (IH (S i)).
  destruct rest as [|next rest']; [cbn in *; lia|].
  cbn [length pred] in *.
  destruct (Qgtb (gapMinutes current next) 1); cbn [markers omap list_omap length]; lia.
Qed.

Lemma length_sql_limit {A} (n : Z) (l : list A) :
  0 <= n -> Z.of_nat (length (sql_limit n l)) <= n.
Proof.
  intros Hn. unfold sql_limit.
  destruct (n <? 0) eqn:E; [apply Z.ltb_lt in E; lia|].
  rewrite length_take. lia.
Qed.

(** C5, as the code has it.  When the effective limit N (the parsed
    parameter, or 100 when it is absent, unparsable or 0) is at least 1, a
    history response holds at most N stored reports and at most N - 1
    markers, hence at most 2N - 1 objects. *)
Theorem history_size_bound (f : Faults) (limit_param : option string)
    (w : World) :
  let N := or_number (parseInt limit_param) 100 in
  f HistorySelect = None ->
  1 <= N ->
  exists out,
    get_history f limit_param w = (w, res_json (JHistory out)) /\
    Z.of_nat (length (stored_rows out)) <= N /\
    Z.of_nat (length (markers out)) <= N - 1 /\
    Z.of_nat (length out) <= 2 * N - 1 /\
    (parseInt limit_param = None \/ parseInt limit_param = Some 0 -> N = 100).
Proof.
  intros N Hf HN. unfold get_history, db_read. rewrite Hf. fold N.
  eexists. split; [reflexivity|].
  set (rows := select_history N (db w)).
  assert (Hrows : Z.of_nat (length rows) <= N).
  { apply length_sql_limit. lia. }
  rewrite add_offline_markers_synthesize_gaps.
  pose proof (length_markers_synthesize_gaps 0 rows) as Hm.
  pose proof (length_stored_rows_markers (reverse (synthesize_gaps 0 rows))) as Hlen.
  rewrite stored_rows_reverse, stored_rows_synthesize_gaps, length_reverse in *.
  rewrite (Permutation_length (markers_reverse _)) in *.
  repeat split; try lia.
  intros [Hp|Hp]; subst N; by rewrite Hp.
Qed.

(** The theorem at the sample run with [?limit=2]. *)
Lemma history_size_bound_witness :
  exists out,
    get_history no_faults (Some "2") (run sample_events)
      = (run sample_events, res_json (JHistory out)) /\
    Z.of_nat (length (stored_rows out)) <= 2.
Proof.
  destruct (history_size_bound no_faults (Some "2") (run sample_events)
              eq_refl) as (out & Hout & Hstored & _).
  - vm_compute. discriminate.
  - exists out. split; [exact Hout | exact Hstored].
Defined.

(** C5 as stated fails.  With [?limit=2] the sample run returns three
    objects, two reports and the marker between them; with [?limit=0] it
    returns all three stored reports, since 0 is replaced by 100; with
    [?limit=-1] it returns all three as well, since SQLite reads a negative
    LIMIT as no limit. *)
Lemma history_size_bound_counterexample :
  (exists out,
     snd (get_history no_faults (Some "2") (run sample_events))
       = res_json (JHistory out) /\
     requested_limit (Some "2") = 2 /\ length out = 3%nat) /\
  (exists out,
     snd (get_history no_faults (Some "0") (run sample_events))
       = res_json (JHistory out) /\
     requested_limit (Some "0") = 0 /\ length (stored_rows out) = 3%nat) /\
  (exists out,
     snd (get_history no_faults (Some "-1") (run sample_events))
       = res_json (JHistory out) /\
     requested_limit (Some "-1") = -1 /\ length (stored_rows out) = 3%nat).
Proof.
  repeat split; eexists; (split; [vm_compute; reflexivity|]); split; reflexivity.
Qed.

(** ** Ingest *)

Lemma post_status_response (f : Faults) (now : Millis) (data : Body) (w : World) :
  snd (post_status f now data w) = res_json (JPostOk true "Status received").
Proof. reflexivity. Qed.

Lemma post_status_no_faults (now : Millis) (data : Body) (w : World) :
  db (fst (post_status no_faults now data w))
  = replace_device (or_string (b_device_id data) "unknown")
      (CURRENT_TIMESTAMP now) (or_string (b_status data) "online")
      (insert_status_update
         (or_string (b_device_id data) "unknown")
         (or_string (b_status data) "online")
         (or_number (b_uptime_seconds data) 0)
         (or_string (b_ip_address data) EmptyString)
         (or_number (b_rssi data) 0)
         (or_number (b_free_heap data) 0)
         (truthy_01 (b_is_boot data))
         (or_number (b_timestamp data) now)
         (CURRENT_TIMESTAMP now) (db w)).
Proof.
  unfold post_status, db_write, db_read, no_faults. cbn [fst db log].
  destruct (select_device _ _) as [device|]; [|reflexivity].
  destruct (decide (d_status device = "offline")); reflexivity.
Qed.



(** ** Storage errors *)




(** ** The devices table *)

Lemma filter_device_id_ne_eq (k : string) (l : list Device) :
  filter (fun dev => d_device_id dev = k)
         (filter (fun dev => d_device_id dev <> k) l) = [].
Proof.
  induction l as [|dev l IH]; [done|].
  rewrite (filter_cons (fun dev => d_device_id dev <> k)).
  destruct (decide (d_device_id dev <> k)) as [Hne|_]; [|exact IH].
  rewrite filter_cons. destruct (decide (d_device_id dev = k)); [done|exact IH].
Qed.

Lemma filter_device_id_ne_ne (k k' : string) (l : list Device) :
  k <> k' ->
  filter (fun dev => d_device_id dev = k')
         (filter (fun dev => d_device_id dev <> k) l)
  = filter (fun dev => d_device_id dev = k') l.
Proof.
  intros Hk. induction l as [|dev l IH]; [done|].
  rewrite (filter_cons (fun dev => d_device_id dev <> k)).
  rewrite (filter_cons (fun dev => d_device_id dev = k') dev l).
  destruct (decide (d_device_id dev <> k)) as [Hne|Heq].
  - rewrite filter_cons. rewrite IH. reflexivity.
  - destruct (decide (d_device_id dev = k')) as [He|_]; [|exact IH].
    exfalso. apply Heq. congruence.
Qed.

(** After the upsert the device row is the new one: server time, the given
    status, and [total_uptime] back at its default. *)
Lemma select_device_replace (k : string) (last_seen : Datetime)
    (status : string) (d : Db) :
  select_device k (replace_device k last_seen status d)
  = Some {| d_device_id := k; d_last_seen := last_seen;
            d_total_uptime := 0; d_status := status |}.
Proof.
  unfold select_device, replace_device. cbn [devices].
  rewrite filter_app, filter_device_id_ne_eq. cbn [app].
  rewrite filter_cons. cbn [d_device_id].
  destruct (decide (k = k)); [done|congruence].
Qed.

Lemma select_device_replace_ne (k k' : string) (last_seen : Datetime)
    (status : string) (d : Db) :
  k <> k' ->
  select_device k' (replace_device k last_seen status d) = select_device k' d.
Proof.
  intros Hk. unfold select_device, replace_device. cbn [devices].
  rewrite filter_app, (filter_device_id_ne_ne k k' _ Hk).
  rewrite filter_cons. cbn [d_device_id].
  destruct (decide (k = k')); [congruence|].
  rewrite filter_nil. by rewrite app_nil_r.
Qed.

Lemma select_device_insert_status_update k a b c d e f g h i (database : Db) :
  select_device k (insert_status_update a b c d e f g h i database)
  = select_device k database.
Proof. reflexivity. Qed.

(** A property of the devices table that the three statements writing it
    keep is kept by every handler and by the sweep, under any faults. *)
Section devices_invariant.
Variable P : list Device -> Prop.
Hypothesis P_replace : forall k last_seen status d,
  P (devices d) -> P (devices (replace_device k last_seen status d)).
Hypothesis P_update : forall k d,
  P (devices d) -> P (devices (update_offline k d)).

Lemma db_write_invariant f op change w :
  (forall d, P (devices d) -> P (devices (change d))) ->
  P (devices (db w)) -> P (devices (db (fst (db_write f op change w)))).
Proof.
  intros Hc Hw. unfold db_write. destruct (f op); [exact Hw|]. cbn. auto.
Qed.

Lemma post_status_invariant f now data w :
  P (devices (db w)) -> P (devices (db (fst (post_status f now data w)))).
Proof.
  intros Hw. unfold post_status. cbn [fst].
  apply db_write_invariant; [intros d; apply P_replace|].
  assert (forall w', P (devices (db w')) ->
            P (devices (db (fst (db_write f PostInsertReport
              (insert_status_update
                 (or_string (b_device_id data) "unknown")
                 (or_string (b_status data) "online")
                 (or_number (b_uptime_seconds data) 0)
                 (or_string (b_ip_address data) EmptyString)
                 (or_number (b_rssi data) 0)
                 (or_number (b_free_heap data) 0)
                 (truthy_01 (b_is_boot data))
                 (or_number (b_timestamp data) now)
                 (CURRENT_TIMESTAMP now)) w'))))) as Hins.
  { intros w' Hw'. apply db_write_invariant; [intros d Hd; exact Hd|exact Hw']. }
  specialize (Hins (log (LogReceived data) w) Hw).
  destruct (db_read f PostSelectStatus _) as [[device|]|msg]; try exact Hins.
  destruct (decide (d_status device = "offline")); exact Hins.
Qed.

Lemma get_status_invariant f now w :
  P (devices (db w)) -> P (devices (db (fst (get_status f now w)))).
Proof.
  intros Hw. unfold get_status.
  destruct (db_read f StatusSelectDevice _) as [[device|]|msg]; try exact Hw.
  set (w' := if negb (isOnline now device) && bool_decide (d_status device = "online")
             then _ else w).
  assert (P (devices (db w'))) as Hw'.
  { unfold w'. destruct (_ && _); [|exact Hw].
    apply db_write_invariant; [intros d; apply P_update | exact Hw]. }
  destruct (db_read f StatusSelectLatest _); exact Hw'.
Qed.

Lemma sweep_device_invariant f now w device :
  P (devices (db w)) -> P (devices (db (sweep_device f now w device))).
Proof.
  intros Hw. unfold sweep_device. destruct (_ && _); [|exact Hw].
  assert (P (devices (db (fst (db_write f SweepUpdateOffline
            (update_offline (d_device_id device))
            (log (LogDetectedOffline (d_device_id device)
                    (Math_round (minutesSinceLastSeen now device))) w))))))
    as H1.
  { apply db_write_invariant; [intros d; apply P_update | exact Hw]. }
  pose proof (db_write_invariant f SweepInsertMarker
                (insert_status_update (d_device_id device) "offline" 0 EmptyString 0 0 0
                   now (CURRENT_TIMESTAMP now)) _ (fun d Hd => Hd) H1) as H2.
  destruct (db_write f SweepInsertMarker _ _) as [w2 [err|]]; exact H2.
Qed.

Lemma sweep_invariant f now w :
  P (devices (db w)) -> P (devices (db (sweep f now w))).
Proof.
  intros Hw. unfold sweep. destruct (db_read f SweepSelectDevices _) as [devs|msg].
  - revert w Hw. induction devs as [|device devs IH]; intros w Hw; [exact Hw|].
    cbn [foldl]. apply IH. by apply sweep_device_invariant.
  - exact Hw.
Qed.

Lemma step_invariant w e :
  P (devices (db w)) -> P (devices (db (step w e))).
Proof.
  intros Hw. destruct e as [f now data|f now|f p|f|f now]; cbn [step].
  - by apply post_status_invariant.
  - by apply get_status_invariant.
  - unfold get_history. by destruct (db_read f HistorySelect _).
  - unfold get_stats. by destruct (db_read f StatsSelect _).
  - by apply sweep_invariant.
Qed.

Lemma run_invariant events : P [] -> P (devices (db (run events))).
Proof.
  intros Hnil. unfold run.
  assert (P (devices (db initial_world))) as Hw by exact Hnil.
  revert Hw. generalize initial_world.
  induction events as [|e events IH]; intros w Hw; [exact Hw|].
  cbn [foldl]. apply IH. by apply step_invariant.
Qed.
End devices_invariant.

Lemma total_uptime_zero_replace k last_seen status d :
  Forall (fun device => d_total_uptime device = 0) (devices d) ->
  Forall (fun device => d_total_uptime device = 0)
         (devices (replace_device k last_seen status d)).
Proof.
  intros H. unfold replace_device. cbn [devices].
  apply Forall_app_2; [|by repeat constructor].
  apply Forall_forall. intros device Hin.
  apply list_elem_of_filter in Hin as [_ Hin].
  by apply (proj1 (Forall_forall _ _) H).
Qed.

Lemma total_uptime_zero_update k d :
  Forall (fun device => d_total_uptime device = 0) (devices d) ->
  Forall (fun device => d_total_uptime device = 0)
         (devices (update_offline k d)).
Proof.
  intros H. unfold update_offline. cbn [devices].
  apply Forall_fmap. eapply Forall_impl; [exact H|].
  intros device Hd. unfold compose.
  by destruct (decide (d_device_id device = k)).
Qed.

(** C8. After a POST /api/status the row of the reporting device has
    [total_uptime = 0], whatever the row held before: INSERT OR REPLACE
    writes a new row and the unlisted column takes its default.  No other
    statement writes the column, so in every run of the server, under any
    faults, every device row has [total_uptime = 0]. *)
Theorem total_uptime_always_zero (now : Millis) (data : Body) (w : World)
    (events : list Event) :
  (exists device,
     select_device (or_string (b_device_id data) "unknown")
       (db (fst (post_status no_faults now data w))) = Some device /\
     d_total_uptime device = 0) /\
  Forall (fun device => d_total_uptime device = 0) (devices (db (run events))).
Proof.
  split.
  - rewrite post_status_no_faults, select_device_replace.
    eexists. split; reflexivity.
  - apply (run_invariant (Forall (fun device => d_total_uptime device = 0))).
    + apply total_uptime_zero_replace.
    + apply total_uptime_zero_update.
    + constructor.
Qed.

Lemma last_seen_update_offline (k : string) (d : Db) :
  (fun device => (d_device_id device, d_last_seen device))
    <$> devices (update_offline k d)
  = (fun device => (d_device_id device, d_last_seen device)) <$> devices d.
Proof.
  unfold update_offline. cbn [devices]. rewrite <- list_fmap_compose.
  apply list_fmap_ext. intros i device _. unfold compose.
  by destruct (decide (d_device_id device = k)).
Qed.

(** Neither the sweep nor the read path writes [last_seen]. *)
Lemma last_seen_kept (f : Faults) (now : Millis) (w : World) :
  last_seen_of (sweep f now w) = last_seen_of w /\
  last_seen_of (fst (get_status f now w)) = last_seen_of w.
Proof.
  unfold last_seen_of. split.
  - apply (sweep_invariant
             (fun l => (fun device => (d_device_id device, d_last_seen device))
                         <$> l = last_seen_of w)); [|reflexivity].
    intros k d Hd. by rewrite last_seen_update_offline.
  - apply (get_status_invariant
             (fun l => (fun device => (d_device_id device, d_last_seen device))
                         <$> l = last_seen_of w)); [|reflexivity].
    intros k d Hd. by rewrite last_seen_update_offline.
Qed.

(** C9. A POST /api/status at server time [now] leaves the device row with
    [last_seen = CURRENT_TIMESTAMP], whatever client [timestamp] the body
    carries: replacing the client timestamp changes nothing in the devices
    table.  Hence two successive posts of one device, the second at a server
    time not before the first, never move [last_seen] backward; and neither
    the sweep nor the read path writes [last_seen]. *)
Theorem last_seen_is_server_time (now1 now2 : Millis) (data1 data2 : Body)
    (w : World) (Hclock : now1 <= now2)
    (Hsame : or_string (b_device_id data2) "unknown"
             = or_string (b_device_id data1) "unknown") :
  let key := or_string (b_device_id data1) "unknown" in
  let w1 := fst (post_status no_faults now1 data1 w) in
  let w2 := fst (post_status no_faults now2 data2 w1) in
  (forall timestamp,
     devices (db (fst (post_status no_faults now1
                         (with_timestamp data1 timestamp) w)))
     = devices (db w1)) /\
  (exists device1 device2,
    select_device key (db w1) = Some device1 /\
    d_last_seen device1 = CURRENT_TIMESTAMP now1 /\
    select_device key (db w2) = Some device2 /\
    d_last_seen device2 = CURRENT_TIMESTAMP now2 /\
    d_last_seen device1 <= d_last_seen device2) /\
  (forall f t,
     last_seen_of (sweep f t w1) = last_seen_of w1 /\
     last_seen_of (fst (get_status f t w1)) = last_seen_of w1).
Proof.
  intros key w1 w2. split; [|split].
  - intros timestamp. subst w1. by rewrite !post_status_no_faults.
  - subst w1 w2 key. rewrite !post_status_no_faults, Hsame.
    rewrite !select_device_replace.
    eexists _, _. repeat split; cbn [d_last_seen].
    unfold CURRENT_TIMESTAMP. apply Z.div_le_mono; lia.
  - intros f t. apply last_seen_kept.
Qed.

(** The theorem for a device whose second report carries a client timestamp
    from long ago. *)
Lemma last_seen_is_server_time_witness :
  exists device,
    select_device "esp32-a"
      (db (fst (post_status no_faults 120000
                  (with_timestamp (body_of "esp32-a" "online") (Some 5))
                  (fst (post_status no_faults 60000
                          (body_of "esp32-a" "online") initial_world)))))
    = Some device /\
    d_last_seen device = 120.
Proof.
  destruct (last_seen_is_server_time 60000 120000
              (body_of "esp32-a" "online")
              (with_timestamp (body_of "esp32-a" "online") (Some 5))
              initial_world ltac:(lia) eq_refl)
    as (_ & (device1 & device2 & _ & _ & H2 & Hls & _) & _).
  exists device2. split; [exact H2 | exact Hls].
Defined.

(** ** Transition logging *)







(** ** The sweep *)

Lemma device_ids_update_offline (k : string) (d : Db) :
  d_device_id <$> devices (update_offline k d) = d_device_id <$> devices d.
Proof.
  unfold update_offline. cbn [devices]. rewrite <- list_fmap_compose.
  apply list_fmap_ext. intros i device _. unfold compose.
  by destruct (decide (d_device_id device = k)).
Qed.

Lemma select_device_update_offline (k : string) (d : Db) :
  select_device k (update_offline k d) = set_offline <$> select_device k d.
Proof.
  unfold select_device, update_offline. cbn [devices].
  induction (devices d) as [|device l IH]; [done|].
  rewrite fmap_cons, !filter_cons.
  destruct (decide (d_device_id device = k)) as [He|Hne].
  - cbn [d_device_id set_offline]. rewrite decide_True by done. reflexivity.
  - rewrite decide_False by done. exact IH.
Qed.

Lemma select_device_update_offline_ne (k k' : string) (d : Db) :
  k' <> k -> select_device k (update_offline k' d) = select_device k d.
Proof.
  intros Hk. unfold select_device, update_offline. cbn [devices].
  induction (devices d) as [|device l IH]; [done|].
  rewrite fmap_cons, !filter_cons.
  destruct (decide (d_device_id device = k')) as [He|Hne].
  - cbn [d_device_id set_offline]. rewrite !decide_False by congruence. exact IH.
  - destruct (decide (d_device_id device = k)); [done|exact IH].
Qed.

Lemma device_unique_replace k last_seen status d :
  NoDup (d_device_id <$> devices d) ->
  NoDup (d_device_id <$> devices (replace_device k last_seen status d)).
Proof.
  intros H. unfold replace_device. cbn [devices]. rewrite fmap_app.
  apply (proj2 (NoDup_app _ _)). split; [|split].
  - apply (sublist_NoDup _ (d_device_id <$> devices d)); [exact H|].
    apply fmap_sublist, sublist_filter.
  - intros id Hid Hk. cbn in Hk. apply list_elem_of_singleton in Hk. subst id.
    apply list_elem_of_fmap in Hid as (device & Hd & Hin).
    apply list_elem_of_filter in Hin as [Hne _]. congruence.
  - apply NoDup_singleton.
Qed.

Lemma device_unique_update k d :
  NoDup (d_device_id <$> devices d) ->
  NoDup (d_device_id <$> devices (update_offline k d)).
Proof. by rewrite device_ids_update_offline. Qed.

(** The primary key of [devices]: in every run, no two rows share a
    [device_id]. *)
Lemma device_unique_run (events : list Event) :
  NoDup (d_device_id <$> devices (db (run events))).
Proof.
  apply (run_invariant (fun l => NoDup (d_device_id <$> l))).
  - apply device_unique_replace.
  - apply device_unique_update.
  - constructor.
Qed.

(** A device that is not stale, or not stored as "online", is passed over. *)
Lemma sweep_device_skip f now w device :
  noUpdateInOneMinute now device && bool_decide (d_status device = "online")
    = false ->
  sweep_device f now w device = w.
Proof. intros H. unfold sweep_device. by rewrite H. Qed.

(** A stale device stored as "online": one log entry, the row set to
    "offline", one marker row. *)
Lemma sweep_device_hit now w device :
  noUpdateInOneMinute now device && bool_decide (d_status device = "online")
    = true ->
  sweep_device no_faults now w device
  = {| db := insert_status_update (d_device_id device) "offline" 0 EmptyString 0 0 0
               now (CURRENT_TIMESTAMP now)
               (update_offline (d_device_id device) (db w));
       console := console w ++
         [LogDetectedOffline (d_device_id device)
            (Math_round (minutesSinceLastSeen now device))] |}.
Proof. intros H. unfold sweep_device. rewrite H. reflexivity. Qed.

(** Sweeping one device leaves every other device as it was: its reports,
    its logged transitions and its row. *)
Lemma sweep_device_other f now w device k :
  d_device_id device <> k ->
  reports_of k (sweep_device f now w device) = reports_of k w /\
  offline_detections_of k (sweep_device f now w device)
    = offline_detections_of k w /\
  select_device k (db (sweep_device f now w device)) = select_device k (db w).
Proof.
  intros Hk. unfold sweep_device.
  destruct (_ && _); [|done].
  unfold db_write, reports_of, offline_detections_of.
  destruct (f SweepUpdateOffline), (f SweepInsertMarker);
    cbn [fst db log console insert_status_update status_updates];
    rewrite ?filter_app, ?filter_cons, ?filter_nil;
    cbn [is_offline_detection r_device_id];
    rewrite ?decide_False by (rewrite ?bool_decide_eq_true; congruence);
    rewrite ?app_nil_r;
    rewrite ?select_device_insert_status_update;
    rewrite ?select_device_update_offline_ne by done;
    done.
Qed.

Lemma sweep_fold_other f now devs w k :
  Forall (fun device => d_device_id device <> k) devs ->
  reports_of k (foldl (sweep_device f now) w devs) = reports_of k w /\
  offline_detections_of k (foldl (sweep_device f now) w devs)
    = offline_detections_of k w /\
  select_device k (db (foldl (sweep_device f now) w devs))
    = select_device k (db w).
Proof.
  revert w. induction devs as [|device devs IH]; intros w Hall; [done|].
  apply Forall_cons in Hall as [Hd Hall]. cbn [foldl].
  destruct (IH (sweep_device f now w device) Hall) as (-> & -> & ->).
  by apply sweep_device_other.
Qed.

(** With the primary key, the row of a device splits the table into rows of
    other devices before and after it. *)
Lemma select_device_split (d : Db) (k : string) (device : Device) :
  NoDup (d_device_id <$> devices d) ->
  select_device k d = Some device ->
  d_device_id device = k /\
  exists l1 l2,
    devices d = l1 ++ device :: l2 /\
    Forall (fun dev => d_device_id dev <> k) l1 /\
    Forall (fun dev => d_device_id dev <> k) l2.
Proof.
  unfold select_device. intros Hnd Hsel.
  assert (device ∈ filter (fun dev => d_device_id dev = k) (devices d)) as Hin.
  { destruct (filter _ _) as [|x l]; [discriminate|].
    injection Hsel as ->. by left. }
  apply list_elem_of_filter in Hin as [Hk Hin]. split; [exact Hk|].
  apply list_elem_of_split in Hin as (l1 & l2 & Heq).
  exists l1, l2. split; [exact Heq|].
  rewrite Heq, fmap_app, fmap_cons in Hnd.
  apply NoDup_app in Hnd as (_ & Hl1 & Hnd).
  apply NoDup_cons in Hnd as [Hl2 _].
  split; apply Forall_forall; intros dev Hdev Hid.
  - apply (Hl1 (d_device_id dev)); [by apply list_elem_of_fmap_2|].
    rewrite Hid, <- Hk. by left.
  - apply Hl2. rewrite Hk, <- Hid. by apply list_elem_of_fmap_2.
Qed.

(** A tick passes over a device that is not both stale and stored "online". *)
Lemma sweep_passes_over f now w device :
  NoDup (d_device_id <$> devices (db w)) ->
  select_device (d_device_id device) (db w) = Some device ->
  noUpdateInOneMinute now device && bool_decide (d_status device = "online")
    = false ->
  f SweepSelectDevices = None ->
  reports_of (d_device_id device) (sweep f now w)
    = reports_of (d_device_id device) w /\
  offline_detections_of (d_device_id device) (sweep f now w)
    = offline_detections_of (d_device_id device) w /\
  select_device (d_device_id device) (db (sweep f now w)) = Some device.
Proof.
  intros Hnd Hsel Hcond Hf. unfold sweep, db_read. rewrite Hf.
  destruct (select_device_split _ _ _ Hnd Hsel) as (_ & l1 & l2 & -> & H1 & H2).
  rewrite foldl_app. cbn [foldl].
  rewrite (sweep_device_skip f now _ device Hcond).
  destruct (sweep_fold_other f now l2 (foldl (sweep_device f now) w l1) _ H2)
    as (-> & -> & ->).
  destruct (sweep_fold_other f now l1 w _ H1) as (-> & -> & ->).
  by rewrite Hsel.
Qed.

(** A tick over a stale device stored "online": one marker row, one logged
    transition, the row set to "offline". *)
Lemma sweep_marks_offline now w device :
  NoDup (d_device_id <$> devices (db w)) ->
  select_device (d_device_id device) (db w) = Some device ->
  noUpdateInOneMinute now device && bool_decide (d_status device = "online")
    = true ->
  (exists id,
     reports_of (d_device_id device) (sweep no_faults now w)
     = reports_of (d_device_id device) w
       ++ [sweep_marker id (d_device_id device) now]) /\
  offline_detections_of (d_device_id device) (sweep no_faults now w)
    = offline_detections_of (d_device_id device) w
      ++ [LogDetectedOffline (d_device_id device)
            (Math_round (minutesSinceLastSeen now device))] /\
  select_device (d_device_id device) (db (sweep no_faults now w))
    = Some (set_offline device).
Proof.
  intros Hnd Hsel Hcond. unfold sweep, db_read, no_faults.
  fold no_faults.
  destruct (select_device_split _ _ _ Hnd Hsel) as (_ & l1 & l2 & -> & H1 & H2).
  rewrite foldl_app. cbn [foldl].
  set (wa := foldl (sweep_device no_faults now) w l1).
  destruct (sweep_fold_other no_faults now l2
              (sweep_device no_faults now wa device) _ H2) as (-> & -> & ->).
  destruct (sweep_fold_other no_faults now l1 w _ H1) as (Hr & Hl & Hs).
  fold wa in Hr, Hl, Hs.
  rewrite (sweep_device_hit now wa device Hcond).
  unfold reports_of, offline_detections_of in *.
  cbn [db console insert_status_update status_updates update_offline].
  rewrite !filter_app, !filter_cons, !filter_nil.
  cbn [r_device_id is_offline_detection].
  rewrite !decide_True by (rewrite ?bool_decide_eq_true; done).
  rewrite Hr, Hl.
  split; [by eexists|]. split; [done|].
  change (select_device (d_device_id device)
            (update_offline (d_device_id device) (db wa))
          = Some (set_offline device)).
  by rewrite select_device_update_offline, Hs, Hsel.
Qed.

(** C1. Under the primary key of [devices]: a sweep tick over a device
    stored "offline" adds no report of that device and logs no transition for
    it.  A tick over a device stored "online" whose minutes since
    [last_seen] are at least 1 sets it "offline", appends exactly one
    synthetic offline report of that device and logs exactly one transition;
    a second tick, at any time and with no report in between, appends and
    logs nothing more.  A new "online" report sets the stored status back
    to "online". *)
Theorem sweep_offline_exactly_once (now now' : Millis) (w : World)
    (device : Device)
    (Hunique : NoDup (d_device_id <$> devices (db w)))
    (Hdevice : select_device (d_device_id device) (db w) = Some device) :
  let k := d_device_id device in
  let w1 := sweep no_faults now w in
  let w2 := sweep no_faults now' w1 in
  (d_status device = "offline" ->
   reports_of k w1 = reports_of k w /\
   offline_detections_of k w1 = offline_detections_of k w /\
   select_device k (db w1) = Some device) /\
  (d_status device = "online" ->
   (1 <= minutesSinceLastSeen now device)%Q ->
   (exists id, reports_of k w1 = reports_of k w ++ [sweep_marker id k now]) /\
   offline_detections_of k w1
     = offline_detections_of k w
       ++ [LogDetectedOffline k (Math_round (minutesSinceLastSeen now device))] /\
   select_device k (db w1) = Some (set_offline device) /\
   reports_of k w2 = reports_of k w1 /\
   offline_detections_of k w2 = offline_detections_of k w1 /\
   select_device k (db w2) = Some (set_offline device)) /\
  (forall t data,
     or_string (b_device_id data) "unknown" = k ->
     or_string (b_status data) "online" = "online" ->
     select_device k (db (fst (post_status no_faults t data w1)))
     = Some {| d_device_id := k; d_last_seen := CURRENT_TIMESTAMP t;
               d_total_uptime := 0; d_status := "online" |}).
Proof.
  intros k w1 w2. subst k w1 w2. split; [|split].
  - intros Hoff. apply sweep_passes_over; try done.
    rewrite Hoff. apply andb_false_r.
  - intros Hon Hstale.
    assert (noUpdateInOneMinute now device
            && bool_decide (d_status device = "online") = true) as Hcond.
    { apply andb_true_intro. split; [by apply Qgeb_le|].
      by apply bool_decide_eq_true. }
    destruct (sweep_marks_offline now w device Hunique Hdevice Hcond)
      as (Hrep & Hlog & Hsel).
    split; [exact Hrep|]. split; [exact Hlog|]. split; [exact Hsel|].
    assert (NoDup (d_device_id <$> devices (db (sweep no_faults now w))))
      as Hunique1.
    { apply (sweep_invariant (fun l => NoDup (d_device_id <$> l)));
        [apply device_unique_update | exact Hunique]. }
    apply (sweep_passes_over no_faults now' _ (set_offline device));
      try done.
    apply andb_false_r.
  - intros t data Hk Hst.
    rewrite post_status_no_faults, Hk, Hst.
    apply select_device_replace.
Qed.

(** The theorem for a device last seen 90 s before the tick: the tick appends
    one marker and logs one transition, the tick a minute later nothing. *)
Lemma sweep_offline_exactly_once_witness :
  let w := run [EPostStatus no_faults 0 (body_of "esp32-a" "online")] in
  let w1 := sweep no_faults 90000 w in
  let w2 := sweep no_faults 150000 w1 in
  (exists id,
     reports_of "esp32-a" w1
     = reports_of "esp32-a" w ++ [sweep_marker id "esp32-a" 90000]) /\
  reports_of "esp32-a" w2 = reports_of "esp32-a" w1 /\
  offline_detections_of "esp32-a" w2 = [LogDetectedOffline "esp32-a" 2].
Proof.
  pose proof (sweep_offline_exactly_once 90000 150000
                (run [EPostStatus no_faults 0 (body_of "esp32-a" "online")])
                {| d_device_id := "esp32-a"; d_last_seen := 0;
                   d_total_uptime := 0; d_status := "online" |}
                (device_unique_run _) eq_refl) as (_ & H & _).
  destruct (H eq_refl) as (Hrep & Hlog & _ & Hrep2 & Hlog2 & _).
  { apply (proj1 (Qgeb_le _ _)). reflexivity. }
  split; [exact Hrep|]. split; [exact Hrep2|].
  etrans; [exact Hlog2|]. etrans; [exact Hlog|]. reflexivity.
Defined.

(** ** The history query feeds the synthesizer a descending sequence *)

#[local] Instance newer_or_same_total : Total newer_or_same.
Proof. intros a b. unfold newer_or_same. lia. Qed.

Lemma Sorted_take {A} (R : relation A) (n : nat) (l : list A) :
  Sorted R l -> Sorted R (take n l).
Proof.
  revert n. induction l as [|x l IH]; intros n Hs; [by rewrite take_nil|].
  destruct n as [|n]; [constructor|].
  apply Sorted_inv in Hs as [Hs Hhd]. cbn [take]. constructor; [by apply IH|].
  destruct l as [|y l]; [rewrite take_nil; constructor|].
  destruct n as [|n]; cbn [take]; [constructor|].
  apply HdRel_inv in Hhd. by constructor.
Qed.

Lemma select_history_descending (limit : Z) (d : Db) :
  Sorted newer_or_same (select_history limit d).
Proof.
  unfold select_history, sql_limit, order_by_server_timestamp_desc.
  destruct (limit <? 0); [|apply Sorted_take]; apply Sorted_merge_sort; apply _.
Qed.

(** Every history response is chronological, oldest first. *)
Lemma get_history_chronological (f : Faults) (limit_param : option string)
    (w : World) (out : list HistoryRow) :
  snd (get_history f limit_param w) = res_json (JHistory out) ->
  Sorted Z.le (h_time <$> out).
Proof.
  unfold get_history. destruct (db_read f HistorySelect _) as [rows|msg] eqn:E;
    [|discriminate].
  intros Hout. injection Hout as <-.
  apply history_chronological.
  unfold db_read in E. destruct (f HistorySelect); [discriminate|].
  injection E as <-. apply select_history_descending.
Qed.

(** * Further properties of the handlers *)

(** ** [ORDER BY key DESC LIMIT 1] *)

Section max_by_facts.
Context {A : Type} (key : A -> Z).

Lemma max_by_foldl_Some (b : A) (l : list A) :
  exists m,
    foldl (fun best x =>
             match best with
             | None => Some x
             | Some b => if key b <? key x then Some x else Some b
             end) (Some b) l = Some m /\
    m ∈ b :: l /\ key b <= key m /\ (forall y, y ∈ l -> key y <= key m).
Proof.
  revert b. induction l as [|x l IH]; intros b.
  - exists b. cbn. repeat split; [by left | lia |].
    intros y Hy. by apply elem_of_nil in Hy.
  - cbn [foldl]. destruct (key b <? key x) eqn:E.
    + apply Z.ltb_lt in E. destruct (IH x) as (m & Hm & Hin & Hle & Hall).
      exists m. split; [exact Hm|]. split; [by right|]. split; [lia|].
      intros y Hy. apply elem_of_cons in Hy as [->|Hy]; [lia|by apply Hall].
    + apply Z.ltb_ge in E. destruct (IH b) as (m & Hm & Hin & Hle & Hall).
      exists m. split; [exact Hm|]. split.
      { apply elem_of_cons in Hin as [->|Hin]; [by left|by right; right]. }
      split; [lia|].
      intros y Hy. apply elem_of_cons in Hy as [->|Hy]; [lia|by apply Hall].
Qed.

Lemma max_by_None (l : list A) : max_by key l = None <-> l = [].
Proof.
  split; [|by intros ->].
  destruct l as [|x l]; [done|]. unfold max_by. cbn [foldl].
  destruct (max_by_foldl_Some x l) as (m & -> & _). discriminate.
Qed.

Lemma max_by_Some (l : list A) (m : A) :
  max_by key l = Some m -> m ∈ l /\ forall y, y ∈ l -> key y <= key m.
Proof.
  destruct l as [|x l]; [discriminate|]. unfold max_by. cbn [foldl].
  destruct (max_by_foldl_Some x l) as (m' & -> & Hin & Hle & Hall).
  intros [= <-]. split; [exact Hin|].
  intros y Hy. apply elem_of_cons in Hy as [->|Hy]; [lia|by apply Hall].
Qed.

Lemma max_by_snoc (l : list A) (x : A) :
  (forall y, y ∈ l -> key y < key x) -> max_by key (l ++ [x]) = Some x.
Proof.
  intros Hlt. unfold max_by. rewrite foldl_app. cbn [foldl].
  fold (max_by key l). destruct (max_by key l) as [b|] eqn:E; [|done].
  apply max_by_Some in E as [Hin _].
  apply Hlt, Z.ltb_lt in Hin. by rewrite Hin.
Qed.

Lemma max_by_fmap (f : A -> A) (l : list A) :
  (forall x, key (f x) = key x) -> max_by key (f <$> l) = f <$> max_by key l.
Proof.
  intros Hf. unfold max_by.
  change (@None A) with (f <$> @None A) at 1. generalize (@None A).
  induction l as [|x l IH]; intros o; [done|].
  cbn [fmap list_fmap foldl]. rewrite <- IH. f_equal.
  destruct o as [b|]; cbn; [|done].
  rewrite !Hf. by destruct (key b <? key x).
Qed.
End max_by_facts.

(** ** The read path, GET /api/status *)

Lemma db_read_Ok {A} (f : Faults) (op : Op) (rows rows' : A) :
  db_read f op rows = Ok rows' -> rows' = rows.
Proof. unfold db_read. destruct (f op); [discriminate|]. by intros [= ->]. Qed.

Lemma status_updates_update_offline (k : string) (d : Db) :
  status_updates (update_offline k d) = status_updates d.
Proof. reflexivity. Qed.

(** The world a GET /api/status leaves behind: the tables as they were, or
    with the selected device set to "offline". *)
Lemma get_status_status_updates (f : Faults) (now : Millis) (w : World) :
  status_updates (db (fst (get_status f now w))) = status_updates (db w).
Proof.
  unfold get_status.
  destruct (db_read f StatusSelectDevice _) as [[device|]|msg]; try done.
  assert (status_updates (db
            (if negb (isOnline now device)
                && bool_decide (d_status device = "online")
             then fst (db_write f StatusUpdateOffline
                         (update_offline (d_device_id device))
                         (log (LogWentOffline (d_device_id device) now) w))
             else w)) = status_updates (db w)) as H.
  { destruct (_ && _); [|done]. unfold db_write.
    by destruct (f StatusUpdateOffline). }
  by destruct (db_read f StatusSelectLatest _).
Qed.

(** X1. With a healthy device query, GET /api/status answers
    [{status: "offline", message: "No device data"}] exactly when the devices
    table is empty, and then it changes nothing. *)
Theorem status_without_devices (f : Faults) (now : Millis) (w : World)
    (Hread : f StatusSelectDevice = None) :
  (devices (db w) = [] <->
   snd (get_status f now w) = res_json (JNoDevice "offline" "No device data")) /\
  (devices (db w) = [] -> fst (get_status f now w) = w).
Proof.
  unfold get_status, db_read. rewrite Hread. unfold select_latest_device.
  destruct (max_by d_last_seen (devices (db w))) as [device|] eqn:E.
  - assert (devices (db w) <> []) as Hne.
    { intros Hnil. rewrite Hnil in E. discriminate. }
    split; [|done]. split; [done|].
    destruct (f StatusSelectLatest); discriminate.
  - apply max_by_None in E. done.
Qed.

Lemma status_without_devices_witness :
  snd (get_status no_faults 0 initial_world)
    = res_json (JNoDevice "offline" "No device data") /\
  fst (get_status no_faults 0 initial_world) = initial_world.
Proof.
  destruct (status_without_devices no_faults 0 initial_world eq_refl)
    as [H1 H2].
  exact (conj (proj1 H1 eq_refl) (H2 eq_refl)).
Defined.

(** X2. Whenever GET /api/status answers with a device, that device is a row
    of the table whose [last_seen] no other row exceeds, the status is the
    one inferred for it, and [latest_update] is a report of that device that
    no other report of the device is newer than; [latest_update] is null
    exactly when the device has no report. *)
Theorem status_reports_most_recent (f : Faults) (now : Millis) (w : World)
    (b : StatusBody)
    (Hres : snd (get_status f now w) = res_json (JStatus b)) :
  (exists device,
     device ∈ devices (db w) /\
     s_device_id b = d_device_id device /\
     s_last_seen b = d_last_seen device /\
     s_status b = inferred_status now device) /\
  (forall other, other ∈ devices (db w) -> d_last_seen other <= s_last_seen b) /\
  (forall r, s_latest_update b = Some r ->
     r ∈ status_updates (db w) /\ r_device_id r = s_device_id b /\
     forall r', r' ∈ status_updates (db w) ->
       r_device_id r' = s_device_id b ->
       r_server_timestamp r' <= r_server_timestamp r) /\
  (s_latest_update b = None <-> reports_of (s_device_id b) w = []).
Proof.
  pose proof (get_status_status_updates f now w) as Hsu.
  unfold get_status in Hres, Hsu.
  destruct (db_read f StatusSelectDevice _) as [[device|]|msg] eqn:E1;
    try discriminate.
  apply db_read_Ok in E1. symmetry in E1. apply max_by_Some in E1 as [Hin Hmax].
  set (w' := if negb (isOnline now device)
                && bool_decide (d_status device = "online")
             then _ else w) in *.
  destruct (db_read f StatusSelectLatest _) as [latest|msg] eqn:E2;
    [|discriminate].
  apply db_read_Ok in E2. cbn [fst db] in Hsu.
  injection Hres as <-.
  cbn [s_device_id s_last_seen s_status s_latest_update].
  split; [by exists device|]. split; [exact Hmax|].
  unfold select_latest_update in E2. rewrite Hsu in E2.
  split.
  - intros r ->. symmetry in E2. apply max_by_Some in E2 as [Hr Hrmax].
    apply list_elem_of_filter in Hr as [Hk Hr]. repeat split; try done.
    intros r' Hr' Hk'. apply Hrmax. by apply list_elem_of_filter.
  - rewrite E2. unfold reports_of. apply max_by_None.
Qed.

Lemma status_reports_most_recent_witness :
  exists b,
    snd (get_status no_faults 310000 (run sample_events)) = res_json (JStatus b) /\
    s_device_id b = "esp32-a" /\ s_last_seen b = 300 /\ s_status b = "online" /\
    forall other, other ∈ devices (db (run sample_events)) ->
                  d_last_seen other <= s_last_seen b.
Proof.
  eexists. split; [vm_compute; reflexivity|].
  split; [reflexivity|]. split; [reflexivity|]. split; [reflexivity|].
  refine (proj1 (proj2 (status_reports_most_recent no_faults 310000
                          (run sample_events) _ _))).
  vm_compute. reflexivity.
Defined.

Lemma select_latest_device_update_offline (k : string) (d : Db) :
  select_latest_device (update_offline k d)
  = (fun dev => if decide (d_device_id dev = k) then set_offline dev else dev)
      <$> select_latest_device d.
Proof.
  unfold select_latest_device, update_offline. cbn [devices].
  apply max_by_fmap. intros dev.
  by destruct (decide (d_device_id dev = k)).
Qed.

Lemma get_status_world (now : Millis) (w : World) (device : Device) :
  select_latest_device (db w) = Some device ->
  fst (get_status no_faults now w)
  = if negb (isOnline now device) && bool_decide (d_status device = "online")
    then {| db := update_offline (d_device_id device) (db w);
            console := console w ++ [LogWentOffline (d_device_id device) now] |}
    else w.
Proof.
  intros Hsel. unfold get_status, db_read, no_faults. rewrite Hsel.
  by destruct (_ && _).
Qed.

(** X3. Exactly-once on the read path.  Once a GET /api/status has inferred
    "offline" for the most recently seen device, the stored status of that
    device is no longer "online", and a further GET, at whatever time,
    changes neither the tables nor the console: the transition is logged at
    most once. *)
Theorem read_path_logs_once (now now' : Millis) (w : World) (device : Device)
    (Hlatest : select_latest_device (db w) = Some device)
    (Hoffline : inferred_status now device = "offline") :
  let w1 := fst (get_status no_faults now w) in
  (exists device1,
     select_latest_device (db w1) = Some device1 /\
     d_device_id device1 = d_device_id device /\
     d_status device1 <> "online") /\
  fst (get_status no_faults now' w1) = w1.
Proof.
  intros w1. subst w1.
  unfold inferred_status in Hoffline.
  destruct (isOnline now device) eqn:Hon; [discriminate|].
  assert (forall w2 device1,
            select_latest_device (db w2) = Some device1 ->
            d_status device1 <> "online" ->
            fst (get_status no_faults now' w2) = w2) as Hnoop.
  { intros w2 device1 Hsel Hst. rewrite (get_status_world now' w2 device1 Hsel).
    by rewrite (bool_decide_eq_false_2 _ Hst), andb_false_r. }
  rewrite (get_status_world now w device Hlatest), Hon. cbn [negb andb].
  destruct (bool_decide_reflect (d_status device = "online")) as [Hst|Hst].
  - assert (select_latest_device (update_offline (d_device_id device) (db w))
            = Some (set_offline device)) as Hsel.
    { rewrite select_latest_device_update_offline, Hlatest. cbn.
      by rewrite decide_True. }
    split.
    + exists (set_offline device). by repeat split.
    + apply (Hnoop _ (set_offline device)); [exact Hsel | done].
  - split.
    + by exists device.
    + by apply (Hnoop _ device).
Qed.

Lemma read_path_logs_once_witness :
  let w := run [EPostStatus no_faults 0 (body_of "esp32-a" "online")] in
  let w1 := fst (get_status no_faults 90000 w) in
  new_entries w w1 = [LogWentOffline "esp32-a" 90000] /\
  fst (get_status no_faults 150000 w1) = w1.
Proof.
  split; [reflexivity|].
  exact (proj2 (read_path_logs_once 90000 150000
                  (run [EPostStatus no_faults 0 (body_of "esp32-a" "online")])
                  {| d_device_id := "esp32-a"; d_last_seen := 0;
                     d_total_uptime := 0; d_status := "online" |}
                  eq_refl eq_refl)).
Defined.

(** X4. Inferred liveness is monotone in the clock: a device inferred
    "offline" stays "offline" at every later reading until its [last_seen]
    changes, and a device whose [last_seen] is not in the past is "online". *)
Theorem liveness_monotone (now now' : Millis) (device : Device)
    (Hclock : now <= now') :
  (inferred_status now device = "offline" ->
   inferred_status now' device = "offline") /\
  (inferred_status now' device = "online" ->
   inferred_status now device = "online") /\
  (now <= Date_parse (d_last_seen device) ->
   inferred_status now device = "online").
Proof.
  unfold inferred_status, isOnline, minutesSinceLastSeen.
  pose proof (Qltb_lt (minutes_between now (Date_parse (d_last_seen device))) 1)
    as H1.
  pose proof (Qltb_lt (minutes_between now' (Date_parse (d_last_seen device))) 1)
    as H2.
  rewrite minutes_between_lt_1 in H1, H2.
  destruct (Qltb (minutes_between now _) 1) eqn:E1,
           (Qltb (minutes_between now' _) 1) eqn:E2;
    repeat split; try done; intros.
  - exfalso. assert (now' - Date_parse (d_last_seen device) < 60000)
      by (by apply H2). 
    assert (~ now - Date_parse (d_last_seen device) < 60000)
      by (intros Hlt; apply H1 in Hlt; discriminate).
    lia.
  - exfalso. assert (now' - Date_parse (d_last_seen device) < 60000)
      by (by apply H2).
    assert (~ now - Date_parse (d_last_seen device) < 60000)
      by (intros Hlt; apply H1 in Hlt; discriminate).
    lia.
  - exfalso.
    assert (~ now - Date_parse (d_last_seen device) < 60000)
      by (intros Hlt; apply H1 in Hlt; discriminate).
    lia.
  - exfalso.
    assert (~ now - Date_parse (d_last_seen device) < 60000)
      by (intros Hlt; apply H1 in Hlt; discriminate).
    lia.
Qed.

Lemma liveness_monotone_witness :
  inferred_status 150000 {| d_device_id := "esp32-a"; d_last_seen := 0;
                            d_total_uptime := 0; d_status := "online" |}
  = "offline".
Proof.
  refine (proj1 (liveness_monotone 90000 150000 _ _) _);
    [lia | reflexivity].
Defined.

Lemma Math_round_bounds (x : Q) :
  (x - (1 # 2) < inject_Z (Math_round x) /\ inject_Z (Math_round x) <= x + (1 # 2))%Q.
Proof.
  unfold Math_round.
  pose proof (Qfloor_le (x + (1 # 2))) as Hle.
  pose proof (Qlt_floor (x + (1 # 2))) as Hlt.
  rewrite inject_Z_plus in Hlt. change (inject_Z 1) with 1%Q in Hlt.
  split; lra.
Qed.

(** X5. The [minutes_since_last_seen] of a status response is the exact
    number of minutes rounded to one decimal: it lies within 0.05 of it, the
    half going up; and [last_seen] is the stored cell. *)
Theorem status_minutes_rounded (f : Faults) (now : Millis) (w : World)
    (b : StatusBody)
    (Hres : snd (get_status f now w) = res_json (JStatus b)) :
  exists device,
    select_latest_device (db w) = Some device /\
    s_last_seen b = d_last_seen device /\
    (minutesSinceLastSeen now device - (1 # 20) < s_minutes_since_last_seen b)%Q /\
    (s_minutes_since_last_seen b <= minutesSinceLastSeen now device + (1 # 20))%Q /\
    (s_minutes_since_last_seen b * 10
     == inject_Z (Math_round (minutesSinceLastSeen now device * 10)))%Q.
Proof.
  unfold get_status in Hres.
  destruct (db_read f StatusSelectDevice _) as [[device|]|msg] eqn:E1;
    try discriminate.
  apply db_read_Ok in E1.
  destruct (db_read f StatusSelectLatest _) as [latest|msg]; [|discriminate].
  injection Hres as <-. exists device. split; [done|]. split; [done|].
  cbn [s_minutes_since_last_seen].
  destruct (Math_round_bounds (minutesSinceLastSeen now device * 10))
    as [Hlo Hhi].
  set (r := inject_Z (Math_round (minutesSinceLastSeen now device * 10))) in *.
  set (m := minutesSinceLastSeen now device) in *.
  repeat split.
  - apply Qlt_shift_div_l; [reflexivity|]. lra.
  - apply Qle_shift_div_r; [reflexivity|]. lra.
  - field.
Qed.

(** A device last seen 2 minutes and 2 seconds ago is reported at 2.0. *)
Lemma status_minutes_rounded_witness :
  exists b,
    snd (get_status no_faults 122000
           (run [EPostStatus no_faults 0 (body_of "esp32-a" "online")]))
      = res_json (JStatus b) /\
    (s_minutes_since_last_seen b * 10 == 20)%Q /\ s_status b = "offline".
Proof.
  eexists. split; [vm_compute; reflexivity|].
  destruct (status_minutes_rounded no_faults 122000
              (run [EPostStatus no_faults 0 (body_of "esp32-a" "online")])
              _ eq_refl) as (device & Hdev & _ & _ & _ & Heq).
  split; [|reflexivity].
  injection Hdev as <-. exact Heq.
Defined.

(** X6. Report, then read.  After a POST /api/status at server time [now] of
    a device whose [last_seen] is then strictly the latest of the table, a
    GET /api/status within a minute of that second answers with this device,
    "online", with [last_seen] the server time of the report and a
    [latest_update] of this device; the read changes nothing. *)
Theorem post_then_status (now now' : Millis) (data : Body) (w : World)
    (Hnewest : forall other,
       other ∈ devices (db w) ->
       d_device_id other <> or_string (b_device_id data) "unknown" ->
       d_last_seen other < CURRENT_TIMESTAMP now)
    (Hfresh : now' - Date_parse (CURRENT_TIMESTAMP now) < 60000) :
  let key := or_string (b_device_id data) "unknown" in
  let w1 := fst (post_status no_faults now data w) in
  exists b r,
    get_status no_faults now' w1 = (w1, res_json (JStatus b)) /\
    s_device_id b = key /\ s_status b = "online" /\
    s_last_seen b = CURRENT_TIMESTAMP now /\
    s_latest_update b = Some r /\ r_device_id r = key.
Proof.
  intros key w1.
  set (device := {| d_device_id := key; d_last_seen := CURRENT_TIMESTAMP now;
                    d_total_uptime := 0;
                    d_status := or_string (b_status data) "online" |}).
  assert (select_latest_device (db w1) = Some device) as Hsel.
  { subst w1. rewrite post_status_no_faults.
    unfold select_latest_device, replace_device. cbn [devices].
    apply max_by_snoc. intros other Hin.
    apply list_elem_of_filter in Hin as [Hne Hin]. cbn [d_last_seen].
    by apply Hnewest. }
  assert (isOnline now' device = true) as Hon.
  { apply Qltb_lt, minutes_between_lt_1. exact Hfresh. }
  assert (exists r, select_latest_update key (db w1) = Some r /\ r_device_id r = key)
    as (r & Hr & Hk).
  { destruct (select_latest_update key (db w1)) as [r|] eqn:E.
    - exists r. split; [done|]. unfold select_latest_update in E.
      apply max_by_Some in E as [Hin _].
      by apply list_elem_of_filter in Hin as [Hk _].
    - exfalso. unfold select_latest_update in E. apply max_by_None in E.
      subst w1. rewrite post_status_no_faults in E.
      cbn [replace_device insert_status_update status_updates] in E.
      rewrite filter_app, filter_cons in E. cbn [r_device_id] in E.
      rewrite decide_True in E by done.
      by apply app_eq_nil in E as [_ ?]. }
  unfold get_status, db_read, no_faults. rewrite Hsel.
  unfold inferred_status. rewrite Hon. cbn [negb andb].
  change (d_device_id device) with key. rewrite Hr.
  eexists _, r. split; [reflexivity|].
  by repeat split.
Qed.

Lemma post_then_status_witness :
  exists b,
    snd (get_status no_faults 390000
           (fst (post_status no_faults 360000 (body_of "esp32-b" "online")
                   (run sample_events))))
      = res_json (JStatus b) /\
    s_device_id b = "esp32-b" /\ s_status b = "online".
Proof.
  destruct (post_then_status 360000 390000 (body_of "esp32-b" "online")
              (run sample_events)) as (b & r & Hres & Hk & Hst & _).
  - intros other Hin Hne. vm_compute in Hin.
    apply elem_of_cons in Hin as [->|Hin]; [by exfalso; apply Hne|].
    apply elem_of_cons in Hin as [->|Hin]; [|by apply elem_of_nil in Hin].
    vm_compute. reflexivity.
  - vm_compute. reflexivity.
  - exists b. split; [by rewrite Hres|]. by split.
Defined.

(** ** What the statements of the handlers keep *)

Lemma device_ids_sweep_device f now w device :
  d_device_id <$> devices (db (sweep_device f now w device))
  = d_device_id <$> devices (db w).
Proof.
  apply (sweep_device_invariant
           (fun l => d_device_id <$> l = d_device_id <$> devices (db w)));
    [|reflexivity].
  intros k d Hd. by rewrite device_ids_update_offline.
Qed.

(** A property of the database kept by the four statements as the handlers
    issue them is kept by every handler and by the sweep, under any faults:
    the insert and the upsert of a report, the UPDATE to "offline" of a
    known device, and the insert of the marker of a known device. *)
Section store_invariant.
Variable T : Millis -> Prop.
Variable I : Db -> Prop.
Hypothesis I_report : forall now data d, T now -> I d ->
  I (insert_status_update
       (or_string (b_device_id data) "unknown")
       (or_string (b_status data) "online")
       (or_number (b_uptime_seconds data) 0)
       (or_string (b_ip_address data) EmptyString)
       (or_number (b_rssi data) 0)
       (or_number (b_free_heap data) 0)
       (truthy_01 (b_is_boot data))
       (or_number (b_timestamp data) now)
       (CURRENT_TIMESTAMP now) d).
Hypothesis I_upsert : forall now data d, T now -> I d ->
  I (replace_device (or_string (b_device_id data) "unknown")
       (CURRENT_TIMESTAMP now) (or_string (b_status data) "online") d).
Hypothesis I_offline : forall k d,
  k ∈ d_device_id <$> devices d -> I d -> I (update_offline k d).
Hypothesis I_marker : forall now k d,
  T now -> k ∈ d_device_id <$> devices d -> I d ->
  I (insert_status_update k "offline" 0 EmptyString 0 0 0 now
       (CURRENT_TIMESTAMP now) d).

Lemma db_write_store f op change w :
  (I (db w) -> I (change (db w))) ->
  I (db w) -> I (db (fst (db_write f op change w))).
Proof. intros Hc Hw. unfold db_write. destruct (f op); cbn; auto. Qed.

Lemma post_status_store f now data w :
  T now -> I (db w) -> I (db (fst (post_status f now data w))).
Proof.
  intros Ht Hw. unfold post_status. cbn [fst].
  apply db_write_store; [by apply I_upsert|].
  set (w1 := fst (db_write f PostInsertReport _ (log (LogReceived data) w))).
  assert (I (db w1)) as H1.
  { apply db_write_store; [by apply I_report | exact Hw]. }
  destruct (db_read f PostSelectStatus _) as [[device|]|msg]; try exact H1.
  by destruct (decide (d_status device = "offline")).
Qed.

Lemma get_status_store f now w :
  I (db w) -> I (db (fst (get_status f now w))).
Proof.
  intros Hw. unfold get_status.
  destruct (db_read f StatusSelectDevice _) as [[device|]|msg] eqn:E;
    try exact Hw.
  apply db_read_Ok in E. symmetry in E. apply max_by_Some in E as [Hin _].
  set (w' := if negb (isOnline now device)
                && bool_decide (d_status device = "online")
             then _ else w).
  assert (I (db w')) as Hw'.
  { unfold w'. destruct (_ && _); [|exact Hw].
    apply db_write_store; [|exact Hw]. cbn [db log].
    apply I_offline. by apply list_elem_of_fmap_2. }
  by destruct (db_read f StatusSelectLatest _).
Qed.

Lemma sweep_device_store f now w device :
  T now ->
  d_device_id device ∈ d_device_id <$> devices (db w) ->
  I (db w) -> I (db (sweep_device f now w device)).
Proof.
  intros Ht Hin Hw. unfold sweep_device. destruct (_ && _); [|exact Hw].
  set (w1 := fst (db_write f SweepUpdateOffline _ _)).
  assert (I (db w1) /\
          d_device_id device ∈ d_device_id <$> devices (db w1)) as [H1 Hin1].
  { unfold w1, db_write. destruct (f SweepUpdateOffline); cbn [fst db log].
    - done.
    - split; [by apply I_offline|]. by rewrite device_ids_update_offline. }
  pose proof (db_write_store f SweepInsertMarker
                (insert_status_update (d_device_id device) "offline" 0
                   EmptyString 0 0 0 now (CURRENT_TIMESTAMP now)) w1
                (I_marker now _ _ Ht Hin1) H1) as H2.
  destruct (db_write f SweepInsertMarker _ w1) as [w2 [err|]]; exact H2.
Qed.

Lemma sweep_store f now w : T now -> I (db w) -> I (db (sweep f now w)).
Proof.
  intros Ht Hw. unfold sweep.
  destruct (db_read f SweepSelectDevices _) as [devs|msg] eqn:E; [|exact Hw].
  apply db_read_Ok in E.
  assert (Forall (fun device =>
            d_device_id device ∈ d_device_id <$> devices (db w)) devs) as Hall.
  { subst devs. apply Forall_forall. intros device Hin.
    by apply list_elem_of_fmap_2. }
  clear E. revert w Hw Hall.
  induction devs as [|device devs IH]; intros w Hw Hall; [exact Hw|].
  apply Forall_cons in Hall as [Hd Hall]. cbn [foldl]. apply IH.
  - by apply sweep_device_store.
  - by rewrite device_ids_sweep_device.
Qed.

Lemma step_store w e :
  (forall t, event_time e = Some t -> T t) -> I (db w) -> I (db (step w e)).
Proof.
  intros Ht Hw.
  destruct e as [f now data|f now|f p|f|f now]; cbn [step];
    try specialize (Ht now eq_refl).
  - by apply post_status_store.
  - by apply get_status_store.
  - unfold get_history. by destruct (db_read f HistorySelect _).
  - unfold get_stats. by destruct (db_read f StatsSelect _).
  - by apply sweep_store.
Qed.

Lemma run_store events :
  (forall t, T t) -> I (db initial_world) -> I (db (run events)).
Proof.
  intros Ht. unfold run. generalize initial_world.
  induction events as [|e events IH]; intros w Hw; [exact Hw|].
  cbn [foldl]. apply IH. by apply step_store.
Qed.
End store_invariant.

(** ** The two tables along a run *)

Lemma or_string_not_empty (v : option string) (d : string) :
  d <> EmptyString -> or_string v d <> EmptyString.
Proof. intros Hd. unfold or_string. by destruct v as [[|c s]|]. Qed.

Lemma ids_in_order_insert k st u ip rs fh ib ts sts (d : Db) :
  ids_in_order d ->
  ids_in_order (insert_status_update k st u ip rs fh ib ts sts d).
Proof.
  intros Hd i r. unfold insert_status_update. cbn [status_updates].
  intros Hi. apply lookup_app_Some in Hi as [Hi|[Hlen Hi]]; [by apply Hd|].
  apply list_lookup_singleton_Some in Hi as [Hi <-]. cbn [r_id]. lia.
Qed.

(** X7. In every run, under any faults, the report at position [i] of
    [status_updates] has id [i + 1]: ids are 1, 2, 3, ... in insertion
    order, so no two reports share an id. *)
Theorem report_ids_consecutive (events : list Event) :
  ids_in_order (db (run events)) /\
  NoDup (r_id <$> status_updates (db (run events))) /\
  (forall r, r ∈ status_updates (db (run events)) ->
     1 <= r_id r <= Z.of_nat (length (status_updates (db (run events))))).
Proof.
  assert (ids_in_order (db (run events))) as Hids.
  { apply (run_store (fun _ => True) ids_in_order); try done.
    - intros now data d _. apply ids_in_order_insert.
    - intros now k d _ _. apply ids_in_order_insert. }
  split; [exact Hids|]. split.
  - apply NoDup_alt. intros i j id Hi Hj.
    rewrite list_lookup_fmap in Hi, Hj.
    destruct (status_updates (db (run events)) !! i) as [ri|] eqn:Ei;
      [|discriminate].
    destruct (status_updates (db (run events)) !! j) as [rj|] eqn:Ej;
      [|discriminate].
    apply Hids in Ei, Ej. cbn in Hi, Hj. injection Hi as <-.
    injection Hj as Hj. lia.
  - intros r Hr. apply list_elem_of_lookup in Hr as [i Hi].
    pose proof (lookup_lt_Some _ _ _ Hi). apply Hids in Hi. lia.
Qed.

(** X8. In every run, under any faults, no device row and no report has an
    empty [device_id] or an empty [status]: an empty tag in a body is
    replaced by its default before it is stored. *)
Theorem stored_tags_not_empty (events : list Event) :
  no_empty_tags (db (run events)).
Proof.
  apply (run_store (fun _ => True) no_empty_tags); try done.
  - intros now data d _ [Hdev Hrep]. split; [exact Hdev|].
    unfold insert_status_update. cbn [status_updates].
    apply Forall_app_2; [exact Hrep|].
    repeat constructor; cbn; by apply or_string_not_empty.
  - intros now data d _ [Hdev Hrep]. split; [|exact Hrep].
    unfold replace_device. cbn [devices]. apply Forall_app_2.
    + apply Forall_forall. intros dev Hin.
      apply list_elem_of_filter in Hin as [_ Hin].
      by apply (proj1 (Forall_forall _ _) Hdev).
    + repeat constructor; cbn; by apply or_string_not_empty.
  - intros k d _ [Hdev Hrep]. split; [|exact Hrep].
    unfold update_offline. cbn [devices]. apply Forall_fmap.
    eapply Forall_impl; [exact Hdev|]. intros dev [H1 H2]. unfold compose.
    by destruct (decide (d_device_id dev = k)).
  - intros now k d _ Hk [Hdev Hrep]. split; [exact Hdev|].
    unfold insert_status_update. cbn [status_updates].
    apply Forall_app_2; [exact Hrep|].
    repeat constructor; cbn; [|done].
    apply list_elem_of_fmap in Hk as (dev & -> & Hin).
    by apply (proj1 (Forall_forall _ _) Hdev).
Qed.

(** X9. The report log is append-only: whatever the event and the faults,
    the reports stored before are a prefix of the reports stored after, so
    no report is ever changed, removed or reordered; and the three GET
    handlers add none. *)
Theorem status_updates_append_only (w : World) (e : Event) :
  status_updates (db w) `prefix_of` status_updates (db (step w e)) /\
  (forall f now,
     status_updates (db (fst (get_status f now w))) = status_updates (db w)) /\
  (forall f limit_param, fst (get_history f limit_param w) = w) /\
  (forall f, fst (get_stats f w) = w).
Proof.
  split; [|split; [|split]].
  - apply (step_store (fun _ => True)
             (fun d => status_updates (db w) `prefix_of` status_updates d));
      try done.
    + intros now data d _ Hd. by apply prefix_app_r.
    + intros now k d _ _ Hd. by apply prefix_app_r.
  - intros f now. apply get_status_status_updates.
  - intros f p. unfold get_history. by destruct (db_read f HistorySelect _).
  - intros f. unfold get_stats. by destruct (db_read f StatsSelect _).
Qed.

Lemma device_id_kept_replace (k k' : string) last_seen status (d : Db) :
  k ∈ d_device_id <$> devices d ->
  k ∈ d_device_id <$> devices (replace_device k' last_seen status d).
Proof.
  intros Hk. unfold replace_device. cbn [devices]. rewrite fmap_app.
  apply elem_of_app. destruct (decide (k = k')) as [->|Hne].
  - right. by left.
  - left. apply list_elem_of_fmap in Hk as (dev & -> & Hin).
    apply list_elem_of_fmap_2. apply list_elem_of_filter. by split.
Qed.

(** X10. The devices table holds one row per [device_id] in every run, and
    a device that has a row keeps one through every later event, under any
    faults: device rows are replaced or updated, never deleted. *)
Theorem devices_one_row_per_id (events : list Event) (e : Event) :
  NoDup (d_device_id <$> devices (db (run events))) /\
  (forall k, k ∈ d_device_id <$> devices (db (run events)) ->
             k ∈ d_device_id <$> devices (db (step (run events) e))).
Proof.
  split; [apply device_unique_run|].
  intros k Hk.
  apply (step_store (fun _ => True) (fun d => k ∈ d_device_id <$> devices d));
    try done.
  - intros now data d _. apply device_id_kept_replace.
  - intros k' d _ Hd. by rewrite device_ids_update_offline.
Qed.

Lemma timestamps_up_to_later (t t' : Millis) (d : Db) :
  t <= t' -> timestamps_up_to t d -> timestamps_up_to t' d.
Proof.
  intros Ht [Hs Hall]. split; [exact Hs|].
  eapply Forall_impl; [exact Hall|]. intros r Hr. cbn in Hr.
  unfold CURRENT_TIMESTAMP in *.
  pose proof (Z.div_le_mono t t' 1000 ltac:(lia) Ht). lia.
Qed.

Lemma timestamps_up_to_insert (t : Millis) k st u ip rs fh ib ts (d : Db) :
  timestamps_up_to t d ->
  timestamps_up_to t
    (insert_status_update k st u ip rs fh ib ts (CURRENT_TIMESTAMP t) d).
Proof.
  intros [Hs Hall]. unfold timestamps_up_to, insert_status_update.
  cbn [status_updates]. split.
  - rewrite fmap_app. apply StronglySorted_app_2;
      [|exact Hs|repeat constructor].
    intros x1 x2 Hx1 Hx2. cbn in Hx2. apply list_elem_of_singleton in Hx2.
    subst x2. apply list_elem_of_fmap in Hx1 as (r & -> & Hr).
    by apply (proj1 (Forall_forall _ _) Hall).
  - apply Forall_app_2; [exact Hall|]. repeat constructor. cbn. lia.
Qed.

Lemma timestamps_up_to_step (t : Millis) (w : World) (e : Event) :
  (forall t', event_time e = Some t' -> t' = t) ->
  timestamps_up_to t (db w) -> timestamps_up_to t (db (step w e)).
Proof.
  intros Ht. apply (step_store (fun now => now = t) (timestamps_up_to t));
    try done.
  - intros now data d -> Hd. by apply timestamps_up_to_insert.
  - intros now k d -> _ Hd. by apply timestamps_up_to_insert.
Qed.

Lemma timestamps_up_to_run (events : list Event) (w : World) (t : Millis) :
  timestamps_up_to t (db w) -> clock_from t events ->
  exists t', timestamps_up_to t' (db (foldl step w events)).
Proof.
  revert w t. induction events as [|e events IH]; intros w t Hw Hclock.
  - by exists t.
  - cbn [foldl clock_from] in *. destruct (event_time e) as [t'|] eqn:E.
    + destruct Hclock as [Hle Hclock]. apply (IH _ t'); [|exact Hclock].
      apply timestamps_up_to_step; [intros t2; congruence|].
      by apply (timestamps_up_to_later t).
    + apply (IH _ t); [|exact Hclock].
      apply timestamps_up_to_step; [intros t2; congruence | exact Hw].
Qed.

(** X11. When the server clock never goes back along the events of a run,
    the reports are stored in the order of their [server_timestamp]: ids and
    server time grow together, under any faults. *)
Theorem server_timestamps_in_order (t0 : Millis) (events : list Event)
    (Hclock : clock_from t0 events) :
  StronglySorted Z.le (r_server_timestamp <$> status_updates (db (run events))).
Proof.
  destruct (timestamps_up_to_run events initial_world t0) as (t' & Hs & _);
    [|exact Hclock|exact Hs].
  split; constructor.
Qed.

Lemma server_timestamps_in_order_witness :
  clock_from 0 sample_events /\
  StronglySorted Z.le
    (r_server_timestamp <$> status_updates (db (run sample_events))).
Proof.
  assert (clock_from 0 sample_events) as H.
  { cbn. repeat split; lia. }
  exact (conj H (server_timestamps_in_order 0 sample_events H)).
Defined.

(** ** The history query and its response *)

#[local] Instance newer_or_same_trans : Transitive newer_or_same.
Proof. intros a b c. unfold newer_or_same. lia. Qed.

Lemma or_number_not_zero (v : option Z) (d : Z) : d <> 0 -> or_number v d <> 0.
Proof. intros Hd. unfold or_number. by destruct v as [[]|]. Qed.

Lemma select_history_Permutation (limit : Z) (d : Db) :
  limit < 0 \/ Z.of_nat (length (status_updates d)) <= limit ->
  select_history limit d ≡ₚ status_updates d.
Proof.
  intros Hl. unfold select_history, sql_limit, order_by_server_timestamp_desc.
  destruct (limit <? 0) eqn:E.
  - apply merge_sort_Permutation.
  - apply Z.ltb_ge in E. rewrite take_ge.
    + apply merge_sort_Permutation.
    + rewrite (Permutation_length (merge_sort_Permutation _ _)). lia.
Qed.

Lemma select_history_submseteq (limit : Z) (d : Db) :
  select_history limit d ⊆+ status_updates d.
Proof.
  unfold select_history, sql_limit, order_by_server_timestamp_desc.
  transitivity (merge_sort newer_or_same (status_updates d)).
  - destruct (limit <? 0); [done|].
    apply sublist_submseteq, sublist_take.
  - apply Permutation_submseteq, merge_sort_Permutation.
Qed.

Lemma length_select_history (limit : Z) (d : Db) :
  0 <= limit ->
  Z.of_nat (length (select_history limit d))
  = Z.min limit (Z.of_nat (length (status_updates d))).
Proof.
  intros Hl. unfold select_history, sql_limit, order_by_server_timestamp_desc.
  destruct (limit <? 0) eqn:E; [apply Z.ltb_lt in E; lia|].
  rewrite length_take, (Permutation_length (merge_sort_Permutation _ _)). lia.
Qed.

(** X12. What a history response holds.  With a healthy query, the stored
    reports of the response are reports of the table, each at most as often
    as the table has it; for a limit N >= 0 there are exactly min(N, size) of
    them; and when the limit is negative or at least the size of the table,
    they are all the reports of the table. *)
Theorem history_contents (f : Faults) (limit_param : option string)
    (w : World) (Hread : f HistorySelect = None) :
  let N := or_number (parseInt limit_param) 100 in
  exists out,
    get_history f limit_param w = (w, res_json (JHistory out)) /\
    stored_rows out ⊆+ status_updates (db w) /\
    (0 <= N ->
     Z.of_nat (length (stored_rows out))
     = Z.min N (Z.of_nat (length (status_updates (db w))))) /\
    (N < 0 \/ Z.of_nat (length (status_updates (db w))) <= N ->
     stored_rows out ≡ₚ status_updates (db w)).
Proof.
  intros N. unfold get_history, db_read. rewrite Hread. fold N.
  eexists. split; [reflexivity|].
  rewrite add_offline_markers_synthesize_gaps, stored_rows_reverse,
    stored_rows_synthesize_gaps.
  split; [|split].
  - rewrite reverse_Permutation. apply select_history_submseteq.
  - intros HN. rewrite length_reverse. by apply length_select_history.
  - intros HN. rewrite reverse_Permutation.
    by apply select_history_Permutation.
Qed.

Lemma history_contents_witness :
  exists out,
    get_history no_faults (Some "-1") (run sample_events)
      = (run sample_events, res_json (JHistory out)) /\
    stored_rows out ≡ₚ status_updates (db (run sample_events)).
Proof.
  destruct (history_contents no_faults (Some "-1") (run sample_events) eq_refl)
    as (out & Hout & _ & _ & Hall).
  exists out. split; [exact Hout|]. apply Hall. left. vm_compute. reflexivity.
Defined.

Lemma head_synthesize_gaps i (rows : list Report) :
  head (synthesize_gaps i rows) = RealRow <$> head rows.
Proof. by destruct rows. Qed.

Lemma last_synthesize_gaps i (rows : list Report) :
  last (synthesize_gaps i rows) = RealRow <$> last rows.
Proof.
  revert i. induction rows as [|current rest IH]; intros i; [done|].
  cbn [synthesize_gaps]. rewrite last_cons, last_app, (IH (S i)).
  destruct rest as [|next rest']; [done|].
  rewrite (last_cons current).
  destruct (last (next :: rest')) as [r|] eqn:E; [done|].
  by apply last_None in E.
Qed.

Lemma select_history_head (limit : Z) (d : Db) :
  limit <> 0 ->
  head (select_history limit d)
  = head (order_by_server_timestamp_desc (status_updates d)).
Proof.
  intros Hl. unfold select_history, sql_limit.
  destruct (limit <? 0) eqn:E; [done|]. apply Z.ltb_ge in E.
  destruct (Z.to_nat limit) as [|n] eqn:En; [lia|].
  by destruct (order_by_server_timestamp_desc _).
Qed.

Lemma order_by_head_newest (l : list Report) (newest : Report) :
  head (order_by_server_timestamp_desc l) = Some newest ->
  newest ∈ l /\
  forall r, r ∈ l -> r_server_timestamp r <= r_server_timestamp newest.
Proof.
  unfold order_by_server_timestamp_desc. intros Hhd.
  pose proof (StronglySorted_merge_sort newer_or_same l) as Hs.
  pose proof (merge_sort_Permutation newer_or_same l) as Hp.
  destruct (merge_sort newer_or_same l) as [|x sorted]; [discriminate|].
  injection Hhd as ->. split.
  - rewrite <- Hp. by left.
  - intros r Hr. rewrite <- Hp in Hr.
    apply StronglySorted_inv in Hs as [_ Hall].
    apply elem_of_cons in Hr as [->|Hr]; [lia|].
    by apply (proj1 (Forall_forall _ _) Hall).
Qed.

(** X13. With a healthy query and at least one stored report, a history
    response is never empty, whatever limit is asked for (a limit of 0 counts
    as 100); its first and its last object are stored reports, never
    markers; and the last object is a newest report of the table. *)
Theorem history_never_empty (f : Faults) (limit_param : option string)
    (w : World) (Hread : f HistorySelect = None)
    (Hrows : status_updates (db w) <> []) :
  exists out oldest newest,
    get_history f limit_param w = (w, res_json (JHistory out)) /\
    head out = Some (RealRow oldest) /\
    last out = Some (RealRow newest) /\
    newest ∈ status_updates (db w) /\
    forall r, r ∈ status_updates (db w) ->
              r_server_timestamp r <= r_server_timestamp newest.
Proof.
  unfold get_history, db_read. rewrite Hread.
  set (N := or_number (parseInt limit_param) 100).
  assert (N <> 0) as HN by (by apply or_number_not_zero).
  pose proof (select_history_head N (db w) HN) as Hhead.
  destruct (head (order_by_server_timestamp_desc (status_updates (db w))))
    as [newest|] eqn:Enew.
  - destruct (order_by_head_newest _ _ Enew) as [Hin Hmax].
    destruct (last (select_history N (db w))) as [oldest|] eqn:Eold.
    + exists (reverse (add_offline_markers (select_history N (db w)))),
        oldest, newest.
      split; [reflexivity|].
      rewrite add_offline_markers_synthesize_gaps, head_reverse, last_reverse.
      rewrite last_synthesize_gaps, head_synthesize_gaps, Eold, Hhead.
      by repeat split.
    + apply last_None in Eold. rewrite Eold in Hhead. discriminate.
  - exfalso. apply head_None in Enew. apply Hrows.
    apply Permutation_nil_r. rewrite <- Enew.
    unfold order_by_server_timestamp_desc. by rewrite merge_sort_Permutation.
Qed.

Lemma history_never_empty_witness :
  exists out newest,
    get_history no_faults (Some "0") (run sample_events)
      = (run sample_events, res_json (JHistory out)) /\
    last out = Some (RealRow newest) /\
    newest ∈ status_updates (db (run sample_events)).
Proof.
  destruct (history_never_empty no_faults (Some "0") (run sample_events)
              eq_refl) as (out & oldest & newest & Hout & _ & Hlast & Hin & _).
  - vm_compute. discriminate.
  - exists out, newest. by repeat split.
Defined.

Lemma gap_exceeds_seconds (current next : Report) :
  Qgtb (gapMinutes current next) 1 = true <->
  60 < r_server_timestamp current - r_server_timestamp next.
Proof.
  rewrite Qgtb_lt. unfold gapMinutes. rewrite minutes_between_gt_1.
  unfold Date_parse. lia.
Qed.

Lemma synthesize_gaps_no_gap i (rows : list Report) :
  (forall j current next,
     rows !! j = Some current -> rows !! S j = Some next ->
     r_server_timestamp current - r_server_timestamp next <= 60) ->
  synthesize_gaps i rows = RealRow <$> rows.
Proof.
  revert i. induction rows as [|current rest IH]; intros i Hgap; [done|].
  cbn [synthesize_gaps fmap list_fmap]. f_equal.
  rewrite (IH (S i)) by (intros j c n Hj HSj; by apply (Hgap (S j))).
  destruct rest as [|next rest']; [done|].
  destruct (Qgtb (gapMinutes current next) 1) eqn:E; [|done].
  apply gap_exceeds_seconds in E.
  specialize (Hgap 0%nat current next eq_refl eq_refl). lia.
Qed.

(** X14. A history response holds no marker exactly when no two adjacent
    reports of the query result are more than 60 seconds apart; the response
    is then the stored rows alone, oldest first. *)
Theorem history_without_gaps (rows : list Report) :
  (forall i current next,
     rows !! i = Some current -> rows !! S i = Some next ->
     r_server_timestamp current - r_server_timestamp next <= 60) <->
  reverse (add_offline_markers rows) = RealRow <$> reverse rows.
Proof.
  rewrite add_offline_markers_synthesize_gaps. split.
  - intros Hgap. rewrite (synthesize_gaps_no_gap 0 rows Hgap).
    by rewrite fmap_reverse.
  - intros Hout i current next Hi HSi.
    destruct (Z_le_gt_dec (r_server_timestamp current - r_server_timestamp next) 60)
      as [Hle|Hgt]; [exact Hle|exfalso].
    destruct (synthesize_gaps_pair 0 rows i current next Hi HSi)
      as (P & S & _ & Heq).
    assert (Qgtb (gapMinutes current next) 1 = true) as Hg
      by (apply gap_exceeds_seconds; lia).
    rewrite Hg in Heq.
    assert (MarkerRow (offline_marker (0 + i) current next)
              ∈ RealRow <$> reverse rows) as Hin.
    { rewrite <- Hout, elem_of_reverse, Heq.
      apply elem_of_app. right. apply elem_of_cons. right.
      apply elem_of_cons. by left. }
    apply list_elem_of_fmap in Hin as (r & Hr & _). discriminate.
Qed.

(** ** The [limit] parameter *)








(** ** More on the sweep *)

(** X16. A sweep tick whose device query succeeds and finds every device
    either seen less than a minute ago or not stored as "online" changes
    nothing: no row, no status, no console line. *)
Theorem sweep_nothing_due (f : Faults) (now : Millis) (w : World)
    (Hread : f SweepSelectDevices = None)
    (Hnone : Forall (fun device =>
                (minutesSinceLastSeen now device < 1)%Q \/
                d_status device <> "online") (devices (db w))) :
  sweep f now w = w.
Proof.
  unfold sweep, db_read. rewrite Hread.
  revert Hnone. generalize (devices (db w)) as devs.
  induction devs as [|device devs IH]; intros Hall; [done|].
  apply Forall_cons in Hall as [Hd Hall]. cbn [foldl].
  rewrite sweep_device_skip; [by apply IH|].
  destruct Hd as [Hfresh|Hst].
  - apply andb_false_intro1. unfold noUpdateInOneMinute.
    rewrite Qgeb_negb_Qltb. apply negb_false_iff. by apply Qltb_lt.
  - apply andb_false_intro2. by apply bool_decide_eq_false_2.
Qed.

Lemma sweep_nothing_due_witness :
  sweep no_faults 30000 (run sample_events) = run sample_events.
Proof.
  apply (sweep_nothing_due no_faults 30000 (run sample_events) eq_refl).
  repeat constructor; left; apply Qltb_lt; reflexivity.
Defined.



(** A tick over a due device when the two writes of the sweep may fail: the
    marker is stored unless its INSERT fails, the row is set to "offline"
    unless its UPDATE fails, and a failed INSERT is logged. *)
Lemma sweep_due_device f now w device :
  NoDup (d_device_id <$> devices (db w)) ->
  select_device (d_device_id device) (db w) = Some device ->
  detected_offline now device = true ->
  f SweepSelectDevices = None ->
  (exists id,
     reports_of (d_device_id device) (sweep f now w)
     = reports_of (d_device_id device) w ++
       match f SweepInsertMarker with
       | Some _ => []
       | None => [sweep_marker id (d_device_id device) now]
       end) /\
  select_device (d_device_id device) (db (sweep f now w))
    = Some (match f SweepUpdateOffline with
            | Some _ => device
            | None => set_offline device
            end) /\
  (forall msg, f SweepInsertMarker = Some msg ->
     LogErrorInsertingMarker msg ∈ console (sweep f now w)).
Proof.
  intros Hnd Hsel Hcond Hf. unfold sweep, db_read. rewrite Hf.
  destruct (select_device_split _ _ _ Hnd Hsel) as (_ & l1 & l2 & -> & H1 & H2).
  rewrite foldl_app. cbn [foldl].
  set (wa := foldl (sweep_device f now) w l1).
  destruct (sweep_fold_other f now l2 (sweep_device f now wa device) _ H2)
    as (-> & _ & ->).
  destruct (sweep_fold_other f now l1 w _ H1) as (Hr & _ & Hs).
  fold wa in Hr, Hs. rewrite Hsel in Hs.
  assert (forall e, e ∈ console (sweep_device f now wa device) ->
            e ∈ console (foldl (sweep_device f now)
                           (sweep_device f now wa device) l2)) as Hlog.
  { generalize (sweep_device f now wa device) as wb.
    induction l2 as [|d l2 IH]; intros wb e He; [done|].
    cbn [foldl]. apply IH.
    { by apply Forall_cons in H2 as [_ ?]. }
    unfold sweep_device. destruct (_ && _); [|done].
    unfold db_write.
    destruct (f SweepUpdateOffline), (f SweepInsertMarker);
      cbn [fst log console]; rewrite ?elem_of_app; auto. }
  assert (sweep_device f now wa device
          = let w1 := log (LogDetectedOffline (d_device_id device)
                             (Math_round (minutesSinceLastSeen now device))) wa in
            let w2 := fst (db_write f SweepUpdateOffline
                             (update_offline (d_device_id device)) w1) in
            match db_write f SweepInsertMarker
                    (insert_status_update (d_device_id device) "offline" 0
                       EmptyString 0 0 0 now (CURRENT_TIMESTAMP now)) w2 with
            | (w3, Some err) => log (LogErrorInsertingMarker err) w3
            | (w3, None) => w3
            end) as Hstep.
  { unfold sweep_device. unfold detected_offline in Hcond. by rewrite Hcond. }
  split; [|split].
  - exists (Z.of_nat (length (status_updates (db wa))) + 1).
    rewrite Hstep. unfold reports_of in *. unfold db_write. cbn zeta.
    destruct (f SweepUpdateOffline), (f SweepInsertMarker);
      cbn [fst db log console insert_status_update status_updates
           update_offline];
      rewrite ?filter_app, ?filter_cons, ?filter_nil; cbn [r_device_id];
      rewrite ?decide_True by done; rewrite Hr; by rewrite ?app_nil_r.
  - rewrite Hstep. unfold db_write. cbn zeta.
    destruct (f SweepUpdateOffline), (f SweepInsertMarker);
      cbn [fst db log console];
      rewrite ?select_device_insert_status_update,
        ?select_device_update_offline, ?Hs; done.
  - intros msg Hmsg. apply Hlog. rewrite Hstep. unfold db_write. cbn zeta.
    rewrite Hmsg. destruct (f SweepUpdateOffline);
      cbn [fst log console]; apply elem_of_app; right; by left.
Qed.

Lemma detected_offline_true (now : Millis) (device : Device) :
  detected_offline now device = true <->
  (1 <= minutesSinceLastSeen now device)%Q /\ d_status device = "online".
Proof.
  unfold detected_offline, noUpdateInOneMinute.
  rewrite andb_true_iff, Qgeb_le, bool_decide_eq_true. done.
Qed.



(** X19. If the sweep's INSERT of the marker fails while its UPDATE
    succeeds, the error is logged, the device is stored "offline" with no
    marker row, and no later tick, whatever its faults, stores a report for
    it: that outage never reaches [status_updates]. *)
Theorem sweep_failed_insert_loses_marker (f f' : Faults) (now now' : Millis)
    (w : World) (device : Device) (msg : string)
    (Hunique : NoDup (d_device_id <$> devices (db w)))
    (Hdevice : select_device (d_device_id device) (db w) = Some device)
    (Honline : d_status device = "online")
    (Hstale : (1 <= minutesSinceLastSeen now device)%Q)
    (Hread : f SweepSelectDevices = None)
    (Hupdate : f SweepUpdateOffline = None)
    (Hinsert : f SweepInsertMarker = Some msg) :
  let k := d_device_id device in
  let w1 := sweep f now w in
  reports_of k w1 = reports_of k w /\
  select_device k (db w1) = Some (set_offline device) /\
  LogErrorInsertingMarker msg ∈ console w1 /\
  reports_of k (sweep f' now' w1) = reports_of k w1.
Proof.
  intros k w1. subst k w1.
  assert (detected_offline now device = true) as Hdue
    by (by apply detected_offline_true).
  destruct (sweep_due_device f now w device Hunique Hdevice Hdue Hread)
    as ((id1 & Hr1) & Hs1 & Hlog).
  rewrite Hupdate in Hs1. rewrite Hinsert, app_nil_r in Hr1.
  split; [exact Hr1|]. split; [exact Hs1|]. split; [by apply Hlog|].
  destruct (f' SweepSelectDevices) as [msg'|] eqn:Hread'.
  - unfold sweep at 1, db_read. by rewrite Hread'.
  - assert (NoDup (d_device_id <$> devices (db (sweep f now w)))) as Hunique1.
    { apply (sweep_invariant (fun l => NoDup (d_device_id <$> l)));
        [apply device_unique_update | exact Hunique]. }
    apply (sweep_passes_over f' now' _ (set_offline device)); try done.
    apply andb_false_r.
Qed.


Lemma sweep_failed_insert_loses_marker_witness :
  let w := run [EPostStatus no_faults 0 (body_of "esp32-a" "online")] in
  let w1 := sweep (failing_only SweepInsertMarker "SQLITE_FULL") 90000 w in
  reports_of "esp32-a" w1 = reports_of "esp32-a" w /\
  LogErrorInsertingMarker "SQLITE_FULL" ∈ console w1 /\
  reports_of "esp32-a" (sweep no_faults 150000 w1) = reports_of "esp32-a" w1.
Proof.
  destruct (sweep_failed_insert_loses_marker
              (failing_only SweepInsertMarker "SQLITE_FULL") no_faults
              90000 150000
              (run [EPostStatus no_faults 0 (body_of "esp32-a" "online")])
              {| d_device_id := "esp32-a"; d_last_seen := 0;
                 d_total_uptime := 0; d_status := "online" |}
              "SQLITE_FULL" (device_unique_run _) eq_refl eq_refl)
    as (H1 & _ & H3 & H4); try reflexivity.
  - apply (proj1 (Qgeb_le _ _)). reflexivity.
  - exact (conj H1 (conj H3 H4)).
Defined.

(** ** GET /api/stats *)

Lemma min_list_spec (l : list Z) :
  match min_list l with
  | None => l = []
  | Some m => m ∈ l /\ forall x, x ∈ l -> m <= x
  end.
Proof.
  induction l as [|y l IH]; [done|]. cbn [min_list foldr].
  fold (min_list l). destruct (min_list l) as [m|].
  - destruct IH as [Hin Hmin]. split.
    + destruct (Z.min_spec y m) as [[_ ->]|[_ ->]]; [by left|by right].
    + intros x Hx. apply elem_of_cons in Hx as [->|Hx]; [lia|].
      specialize (Hmin x Hx). lia.
  - subst l. split; [by left|]. intros x Hx.
    apply list_elem_of_singleton in Hx. lia.
Qed.

Lemma max_list_spec (l : list Z) :
  match max_list l with
  | None => l = []
  | Some m => m ∈ l /\ forall x, x ∈ l -> x <= m
  end.
Proof.
  induction l as [|y l IH]; [done|]. cbn [max_list foldr].
  fold (max_list l). destruct (max_list l) as [m|].
  - destruct IH as [Hin Hmax]. split.
    + destruct (Z.max_spec y m) as [[_ ->]|[_ ->]]; [by right|by left].
    + intros x Hx. apply elem_of_cons in Hx as [->|Hx]; [lia|].
      specialize (Hmax x Hx). lia.
  - subst l. split; [by left|]. intros x Hx.
    apply list_elem_of_singleton in Hx. lia.
Qed.

Lemma boot_sum_count (rows : list Report) :
  foldr Z.add 0 ((fun r => if r_is_boot r =? 1 then 1 else 0) <$> rows)
  = Z.of_nat (length (filter (fun r => r_is_boot r = 1) rows)).
Proof.
  induction rows as [|r rows IH]; [done|].
  cbn [fmap list_fmap foldr]. rewrite IH, filter_cons.
  destruct (decide (r_is_boot r = 1)) as [H1|H1].
  - apply Z.eqb_eq in H1 as ->. cbn [length]. lia.
  - apply Z.eqb_neq in H1 as ->. lia.
Qed.

(** X20. With a healthy query GET /api/stats changes nothing and answers
    with the number of stored reports, the earliest and the latest
    [server_timestamp] among them, and the number of reports that were sent
    at boot; on an empty table the count is 0 and the other three are
    null. *)
Theorem stats_aggregates (f : Faults) (w : World)
    (Hread : f StatsSelect = None) :
  exists s,
    get_stats f w = (w, res_json (JStats s)) /\
    total_updates s = Z.of_nat (length (status_updates (db w))) /\
    (status_updates (db w) = [] ->
     first_seen s = None /\ last_seen s = None /\ boot_count s = None) /\
    (status_updates (db w) <> [] ->
     exists lo hi,
       first_seen s = Some lo /\ last_seen s = Some hi /\
       lo ∈ r_server_timestamp <$> status_updates (db w) /\
       hi ∈ r_server_timestamp <$> status_updates (db w) /\
       (forall r, r ∈ status_updates (db w) ->
                  lo <= r_server_timestamp r <= hi) /\
       boot_count s
       = Some (Z.of_nat (length (filter (fun r => r_is_boot r = 1)
                                        (status_updates (db w)))))).
Proof.
  unfold get_stats, db_read. rewrite Hread. unfold select_stats.
  cbn [head default]. eexists. split; [reflexivity|].
  cbn [total_updates first_seen last_seen boot_count].
  split; [reflexivity|]. split.
  - intros ->. done.
  - intros Hne.
    pose proof (min_list_spec (r_server_timestamp <$> status_updates (db w)))
      as Hmin.
    pose proof (max_list_spec (r_server_timestamp <$> status_updates (db w)))
      as Hmax.
    destruct (min_list _) as [lo|];
      [|by apply fmap_nil_inv in Hmin].
    destruct (max_list _) as [hi|];
      [|by apply fmap_nil_inv in Hmax].
    destruct Hmin as [Hlo Hmin], Hmax as [Hhi Hmax].
    exists lo, hi. repeat split; try done.
    + apply Hmin. by apply list_elem_of_fmap_2.
    + apply Hmax. by apply list_elem_of_fmap_2.
    + destruct (status_updates (db w)) as [|r rows] eqn:E; [done|].
      by rewrite boot_sum_count.
Qed.

Lemma stats_aggregates_witness :
  exists s,
    get_stats no_faults (run sample_events)
      = (run sample_events, res_json (JStats s)) /\
    total_updates s = 3.
Proof.
  destruct (stats_aggregates no_faults (run sample_events) eq_refl)
    as (s & Hs & Htotal & _).
  exists s. split; [exact Hs|]. rewrite Htotal. reflexivity.
Defined.

(** ** More on ingest *)

Lemma or_string_truthy (v : option string) (d : string) :
  or_string (truthy_string v) d = or_string v d.
Proof. by destruct v as [[|c s]|]. Qed.

Lemma or_number_truthy (v : option Z) (d : Z) :
  or_number (truthy_number v) d = or_number v d.
Proof. by destruct v as [[| |]|]. Qed.

Lemma truthy_01_truthy (v : option bool) :
  truthy_01 (truthy_bool v) = truthy_01 v.
Proof. by destruct v as [[|]|]. Qed.

(** The tables after a POST, whatever fails: each of the two writes is
    applied unless it fails itself. *)
Lemma post_status_db (f : Faults) (now : Millis) (data : Body) (w : World) :
  db (fst (post_status f now data w))
  = (match f PostUpsertDevice with
     | Some _ => fun d => d
     | None => replace_device (or_string (b_device_id data) "unknown")
                 (CURRENT_TIMESTAMP now) (or_string (b_status data) "online")
     end)
      ((match f PostInsertReport with
        | Some _ => fun d => d
        | None => insert_status_update
                    (or_string (b_device_id data) "unknown")
                    (or_string (b_status data) "online")
                    (or_number (b_uptime_seconds data) 0)
                    (or_string (b_ip_address data) EmptyString)
                    (or_number (b_rssi data) 0)
                    (or_number (b_free_heap data) 0)
                    (truthy_01 (b_is_boot data))
                    (or_number (b_timestamp data) now)
                    (CURRENT_TIMESTAMP now)
        end) (db w)).
Proof.
  unfold post_status, db_write, db_read. cbn [fst].
  destruct (f PostInsertReport), (f PostSelectStatus), (f PostUpsertDevice);
    cbn [fst db log];
    repeat match goal with
           | |- context [select_device ?k ?d] =>
               destruct (select_device k d) as [device|]
           | |- context [decide (d_status ?x = "offline")] =>
               destruct (decide (d_status x = "offline"))
           end; reflexivity.
Qed.

(** X21. A field that is present but falsy (an empty string, 0, false) is
    stored exactly as if it were absent, under any faults: the tables after
    a POST of a body and of the same body without its falsy fields are the
    same.  So an empty [device_id] becomes "unknown", an empty [status]
    becomes "online", and a client [timestamp] of 0 becomes the server's
    time. *)
Theorem post_falsy_is_absent (f : Faults) (now : Millis) (data : Body)
    (w : World) :
  db (fst (post_status f now (without_falsy data) w))
    = db (fst (post_status f now data w)) /\
  (b_device_id data = Some EmptyString ->
   or_string (b_device_id data) "unknown" = "unknown") /\
  (b_status data = Some EmptyString ->
   or_string (b_status data) "online" = "online") /\
  (b_timestamp data = Some 0 -> or_number (b_timestamp data) now = now).
Proof.
  split.
  - rewrite !post_status_db. unfold without_falsy.
    cbn [b_device_id b_status b_uptime_seconds b_ip_address b_rssi
         b_free_heap b_is_boot b_timestamp].
    by rewrite !or_string_truthy, !or_number_truthy, truthy_01_truthy.
  - repeat split; by intros ->.
Qed.

(** X22. The two writes of POST /api/status do not depend on each other.
    When the report INSERT works, exactly one report is appended even if the
    device upsert fails; when the upsert works, the device row carries the
    new [last_seen] and status even if the INSERT fails; when both fail the
    tables are unchanged.  The response is success in all cases. *)
Theorem post_writes_independent (f : Faults) (now : Millis) (data : Body)
    (w : World) :
  let k := or_string (b_device_id data) "unknown" in
  let w1 := fst (post_status f now data w) in
  (f PostInsertReport = None ->
   exists row,
     status_updates (db w1) = status_updates (db w) ++ [row] /\
     r_device_id row = k /\ r_server_timestamp row = CURRENT_TIMESTAMP now) /\
  (f PostInsertReport <> None ->
   status_updates (db w1) = status_updates (db w)) /\
  (f PostUpsertDevice = None ->
   select_device k (db w1)
   = Some {| d_device_id := k; d_last_seen := CURRENT_TIMESTAMP now;
             d_total_uptime := 0;
             d_status := or_string (b_status data) "online" |}) /\
  (f PostUpsertDevice <> None -> devices (db w1) = devices (db w)) /\
  snd (post_status f now data w) = res_json (JPostOk true "Status received").
Proof.
  intros k w1. subst k w1. rewrite !post_status_db.
  split; [|split; [|split; [|split; [|reflexivity]]]].
  - intros Hi. rewrite Hi. eexists.
    destruct (f PostUpsertDevice);
      cbn [replace_device insert_status_update status_updates];
      (split; [reflexivity|]); by split.
  - intros Hi. destruct (f PostInsertReport); [|done].
    by destruct (f PostUpsertDevice).
  - intros Hu. rewrite Hu. apply select_device_replace.
  - intros Hu. destruct (f PostUpsertDevice); [|done].
    by destruct (f PostInsertReport).
Qed.

Lemma post_writes_independent_witness :
  let w1 := fst (post_status (failing_only PostInsertReport "SQLITE_FULL")
                   60000 (body_of "esp32-a" "online") initial_world) in
  status_updates (db w1) = [] /\
  select_device "esp32-a" (db w1)
  = Some {| d_device_id := "esp32-a"; d_last_seen := 60;
            d_total_uptime := 0; d_status := "online" |}.
Proof.
  destruct (post_writes_independent
              (failing_only PostInsertReport "SQLITE_FULL") 60000
              (body_of "esp32-a" "online") initial_world)
    as (_ & H2 & H3 & _).
  split; [by apply H2 | by apply H3].
Defined.

Lemma length_filter_other_devices (k : string) (l : list Device) :
  NoDup (d_device_id <$> l) ->
  length (filter (fun dev => d_device_id dev <> k) l)
  = if decide (k ∈ d_device_id <$> l) then pred (length l) else length l.
Proof.
  induction l as [|dev rest IH]; intros Hnd.
  - cbn. destruct (decide _) as [Hin|_]; [|done]. by apply elem_of_nil in Hin.
  - rewrite fmap_cons in Hnd. apply NoDup_cons in Hnd as [Hnotin Hnd].
    specialize (IH Hnd). rewrite filter_cons.
    destruct (decide (d_device_id dev <> k)) as [Hne|Heq].
    + cbn [length]. rewrite IH.
      destruct (decide (k ∈ d_device_id <$> rest)) as [Hin|Hnin].
      * rewrite decide_True by (rewrite fmap_cons; by right).
        destruct rest; [by apply elem_of_nil in Hin|done].
      * rewrite decide_False; [done|]. rewrite fmap_cons.
        intros Hin. apply elem_of_cons in Hin as [Hk|Hin]; [by apply Hne|done].
    + assert (d_device_id dev = k) as Hk
        by (destruct (decide (d_device_id dev = k)); [done|by exfalso; apply Heq]).
      rewrite IH. rewrite decide_False by (by rewrite <- Hk).
      rewrite decide_True by (rewrite fmap_cons, Hk; by left). done.
Qed.

(** X23. A healthy POST /api/status touches the row of its own device only:
    the row of every other device is as before, and under the primary key
    the table has one row more exactly when the device was not known. *)
Theorem post_touches_own_row (now : Millis) (data : Body) (w : World)
    (Hunique : NoDup (d_device_id <$> devices (db w))) :
  let k := or_string (b_device_id data) "unknown" in
  let w1 := fst (post_status no_faults now data w) in
  (forall k', k' <> k -> select_device k' (db w1) = select_device k' (db w)) /\
  (k ∈ d_device_id <$> devices (db w) ->
   length (devices (db w1)) = length (devices (db w))) /\
  (k ∉ d_device_id <$> devices (db w) ->
   length (devices (db w1)) = S (length (devices (db w)))).
Proof.
  intros k w1. subst w1. rewrite !post_status_no_faults. fold k.
  unfold replace_device. cbn [devices insert_status_update].
  rewrite length_app, (length_filter_other_devices k _ Hunique). cbn [length].
  split; [|split].
  - intros k' Hk'.
    change (select_device k'
              (replace_device k (CURRENT_TIMESTAMP now)
                 (or_string (b_status data) "online")
                 (insert_status_update k (or_string (b_status data) "online")
                    (or_number (b_uptime_seconds data) 0)
                    (or_string (b_ip_address data) EmptyString)
                    (or_number (b_rssi data) 0)
                    (or_number (b_free_heap data) 0)
                    (truthy_01 (b_is_boot data))
                    (or_number (b_timestamp data) now)
                    (CURRENT_TIMESTAMP now) (db w)))
            = select_device k' (db w)).
    by rewrite select_device_replace_ne.
  - intros Hin. rewrite decide_True by done.
    apply list_elem_of_fmap in Hin as (device & _ & Hin).
    destruct (devices (db w)); [by apply elem_of_nil in Hin|]. cbn. lia.
  - intros Hnin. rewrite decide_False by done. lia.
Qed.

Lemma post_touches_own_row_witness :
  length (devices (db (fst (post_status no_faults 400000
                              (body_of "esp32-a" "online")
                              (run sample_events)))))
  = length (devices (db (run sample_events))).
Proof.
  refine (proj1 (proj2 (post_touches_own_row 400000
            (body_of "esp32-a" "online") (run sample_events)
            (device_unique_run _))) _).
  vm_compute. apply elem_of_cons. right. by left.
Defined.

Lemma reports_have_devices_offline (k : string) (d : Db) :
  k ∈ d_device_id <$> devices d ->
  reports_have_devices d -> reports_have_devices (update_offline k d).
Proof.
  intros _ Hd r Hr. rewrite device_ids_update_offline. by apply Hd.
Qed.

Lemma reports_have_devices_marker (now : Millis) (k : string) (d : Db) :
  True -> k ∈ d_device_id <$> devices d ->
  reports_have_devices d ->
  reports_have_devices
    (insert_status_update k "offline" 0 EmptyString 0 0 0 now
       (CURRENT_TIMESTAMP now) d).
Proof.
  intros _ Hk Hd r Hr. unfold insert_status_update in *.
  cbn [status_updates devices] in *.
  apply elem_of_app in Hr as [Hr|Hr]; [by apply Hd|].
  apply list_elem_of_singleton in Hr. by subst r.
Qed.

Lemma reports_have_devices_step (w : World) (e : Event) :
  event_faults e PostUpsertDevice = None ->
  reports_have_devices (db w) -> reports_have_devices (db (step w e)).
Proof.
  intros Hu Hw. destruct e as [f now data|f now|f p|f|f now]; cbn [step].
  - cbn [event_faults] in Hu. rewrite post_status_db, Hu.
    intros r Hr. cbn [replace_device status_updates devices] in *.
    assert (r ∈ status_updates (db w) \/
            r_device_id r = or_string (b_device_id data) "unknown") as [Hold|Hk].
    { destruct (f PostInsertReport); [by left|].
      cbn [insert_status_update status_updates] in Hr.
      apply elem_of_app in Hr as [Hr|Hr]; [by left|].
      apply list_elem_of_singleton in Hr. right. by subst r. }
    + pose proof (device_id_kept_replace _
                    (or_string (b_device_id data) "unknown")
                    (CURRENT_TIMESTAMP now)
                    (or_string (b_status data) "online") (db w)
                    (Hw r Hold)) as Hin.
      unfold replace_device in Hin. cbn [devices] in Hin.
      by destruct (f PostInsertReport).
    + rewrite Hk, fmap_app. apply elem_of_app. right. by left.
  - apply (get_status_store reports_have_devices);
      [apply reports_have_devices_offline | exact Hw].
  - unfold get_history. by destruct (db_read f HistorySelect _).
  - unfold get_stats. by destruct (db_read f StatsSelect _).
  - apply (sweep_store (fun _ => True) reports_have_devices);
      [apply reports_have_devices_offline
      |apply reports_have_devices_marker | done | exact Hw].
Qed.

(** X24. In every run in which no device upsert of a POST fails, every
    stored report belongs to a device that has a row in [devices]: a report
    and a marker are only ever stored for a device the table knows. *)
Theorem reports_belong_to_known_devices (events : list Event)
    (Hupserts : Forall (fun e => event_faults e PostUpsertDevice = None)
                       events) :
  reports_have_devices (db (run events)).
Proof.
  unfold run.
  assert (reports_have_devices (db initial_world)) as Hw.
  { intros r Hr. by apply elem_of_nil in Hr. }
  revert Hw. generalize initial_world.
  induction events as [|e events IH]; intros w Hw; [exact Hw|].
  apply Forall_cons in Hupserts as [He Hupserts]. cbn [foldl].
  apply IH; [exact Hupserts|]. by apply reports_have_devices_step.
Qed.

Lemma reports_belong_to_known_devices_witness :
  reports_have_devices (db (run sample_events)).
Proof.
  apply reports_belong_to_known_devices. repeat constructor.
Defined.
